(** * Task Manager REST API: the task store and its request handlers

    A shallow embedding of [restapi_2023012.py].  The Flask view functions
    become functions in a state-and-exception monad over the module-level
    list [task_store]; request bodies are parsed JSON values, exactly what
    [request.get_json(silent=True)] hands to the handlers; the two things the
    handlers draw from the environment, the random bits behind
    [uuid.uuid4()] and the reading of [datetime.now().isoformat()], are
    explicit arguments. *)

From Stdlib Require Import String Ascii List ZArith NArith Lia Bool.
From Stdlib Require Import Permutation DecimalString SpecFloat.
Set Warnings "-register-all".
Import ListNotations.
Open Scope string_scope.

(** ** Python strings

    A [string] is read as a sequence of code points below 256.  The
    whitespace removed by [str.strip()] is then the set for which
    [str.isspace] holds in that range: TAB to CR, FS to US, space, NEL and
    the no-break space. *)
Module Str.

Definition is_space (c : ascii) : bool :=
  let n := nat_of_ascii c in
  (Nat.leb 9 n && Nat.leb n 13) || (Nat.leb 28 n && Nat.leb n 32)
  || Nat.eqb n 133 || Nat.eqb n 160.

Fixpoint lstrip (s : string) : string :=
  match s with
  | EmptyString => EmptyString
  | String c r => if is_space c then lstrip r else s
  end.

Fixpoint rstrip (s : string) : string :=
  match s with
  | EmptyString => EmptyString
  | String c r =>
      match rstrip r with
      | EmptyString => if is_space c then EmptyString else String c EmptyString
      | r' => String c r'
      end
  end.

Definition strip (s : string) : string := rstrip (lstrip s).

(** [bool(s)] *)
Definition nonempty (s : string) : bool :=
  match s with EmptyString => false | String _ _ => true end.

(** [sub in s] *)
Fixpoint contains (sub s : string) : bool :=
  prefix sub s ||
  match s with
  | EmptyString => false
  | String _ r => contains sub r
  end.

(** [sep.join(l)] *)
Fixpoint join (sep : string) (l : list string) : string :=
  match l with
  | [] => ""
  | [x] => x
  | x :: r => x ++ sep ++ join sep r
  end.

(** [str(n)] for a natural number *)
Definition of_nat (n : nat) : string := NilZero.string_of_uint (Nat.to_uint n).

End Str.

(** ** Parsed JSON

    What [json.loads] produces: [None], [bool], [int], [float], [str],
    [list] and [dict].  [get_json(silent=True)] also answers [None] when the
    body is missing or is not JSON, so [JNull] stands for that case too.  A
    [dict] is kept as its items; lookup takes the first item with the key. *)
Inductive json : Type :=
| JNull
| JBool (b : bool)
| JInt (n : Z)
| JFloat (f : spec_float)
| JStr (s : string)
| JArr (l : list json)
| JObj (items : list (string * json)).

Fixpoint assoc {V : Type} (key : string) (items : list (string * V)) : option V :=
  match items with
  | [] => None
  | (k, v) :: r => if String.eqb k key then Some v else assoc key r
  end.

Definition float_eqb (x y : spec_float) : bool :=
  match x, y with
  | S754_zero a, S754_zero b => Bool.eqb a b
  | S754_infinity a, S754_infinity b => Bool.eqb a b
  | S754_nan, S754_nan => true
  | S754_finite a m e, S754_finite b n f =>
      Bool.eqb a b && Pos.eqb m n && Z.eqb e f
  | _, _ => false
  end.

(** Sameness of two parsed values, constructor by constructor.  On a string
    operand it is Python's [==]: a [str] equals only an equal [str]. *)
Fixpoint json_eqb (a b : json) {struct a} : bool :=
  match a, b with
  | JNull, JNull => true
  | JBool x, JBool y => Bool.eqb x y
  | JInt x, JInt y => Z.eqb x y
  | JFloat x, JFloat y => float_eqb x y
  | JStr x, JStr y => String.eqb x y
  | JArr x, JArr y =>
      (fix all2 (l1 l2 : list json) {struct l1} : bool :=
         match l1, l2 with
         | [], [] => true
         | h1 :: t1, h2 :: t2 => json_eqb h1 h2 && all2 t1 t2
         | _, _ => false
         end) x y
  | JObj x, JObj y =>
      (fix all2 (l1 l2 : list (string * json)) {struct l1} : bool :=
         match l1, l2 with
         | [], [] => true
         | (k1, v1) :: t1, (k2, v2) :: t2 =>
             String.eqb k1 k2 && json_eqb v1 v2 && all2 t1 t2
         | _, _ => false
         end) x y
  | _, _ => false
  end.

(** ** Python operations on parsed values, with the exceptions they raise *)
Inductive exn : Type := TypeError | AttributeError | KeyError | ValueError.

Inductive result (A : Type) : Type :=
| Return (a : A)
| Raise (e : exn).
Arguments Return {A} a.
Arguments Raise {A} e.

Definition rbind {A B : Type} (r : result A) (k : A -> result B) : result B :=
  match r with
  | Return a => k a
  | Raise e => Raise e
  end.

Notation "'let*' x := r 'in' k" := (rbind r (fun x => k))
  (at level 10, x name, r at level 100, k at level 200).

Module Py.

(** [bool(v)] *)
Definition truthy (v : json) : bool :=
  match v with
  | JNull => false
  | JBool b => b
  | JInt n => negb (Z.eqb n 0)
  | JFloat (S754_zero _) => false
  | JFloat _ => true
  | JStr s => Str.nonempty s
  | JArr l => match l with [] => false | _ :: _ => true end
  | JObj items => match items with [] => false | _ :: _ => true end
  end.

(** [key in v], for a string [key]: a key of a dict, an element of a list, a
    substring of a string; the other types are not containers. *)
Definition contains (key : string) (v : json) : result bool :=
  match v with
  | JObj items => Return (match assoc key items with Some _ => true | None => false end)
  | JArr l => Return (existsb (fun x => json_eqb x (JStr key)) l)
  | JStr s => Return (Str.contains key s)
  | _ => Raise TypeError
  end.

(** [v[key]], for a string [key] *)
Definition getitem (v : json) (key : string) : result json :=
  match v with
  | JObj items =>
      match assoc key items with
      | Some x => Return x
      | None => Raise KeyError
      end
  | _ => Raise TypeError
  end.

(** [v.get(key, default)] exists on dicts only *)
Definition get (v : json) (key : string) (default : json) : result json :=
  match v with
  | JObj items =>
      match assoc key items with
      | Some x => Return x
      | None => Return default
      end
  | _ => Raise AttributeError
  end.

(** [v.strip()] exists on strings only *)
Definition strip (v : json) : result string :=
  match v with
  | JStr s => Return (Str.strip s)
  | _ => Raise AttributeError
  end.

(** [not str(v).strip()].  [str] leaves a string as it is; of every other
    parsed value it gives text that starts with a visible character
    ([None], [True], a sign or digit, [nan], [inf], a bracket or brace), so
    only a string can be blank. *)
Definition str_blank (v : json) : bool :=
  match v with
  | JStr s => negb (Str.nonempty (Str.strip s))
  | _ => false
  end.

(** [v in s] for a set [s] of strings: [v] is hashed first, and lists and
    dicts are not hashable; no other parsed value equals a string. *)
Definition in_set (v : json) (s : list string) : result bool :=
  match v with
  | JArr _ | JObj _ => Raise TypeError
  | _ => Return (existsb (fun x => json_eqb v (JStr x)) s)
  end.

End Py.

(** ** [uuid.uuid4()] and its [str]

    Sixteen random bytes read as a big-endian number, the variant and
    version bits forced, printed as 32 hexadecimal digits in groups of 8, 4,
    4, 4 and 12. *)
Module Uuid.
Local Open Scope N_scope.

Definition uuid4 (rnd : N) : N :=
  let i := rnd mod 2 ^ 128 in
  let i := N.ldiff i (N.shiftl 0xc000 48) in
  let i := N.lor i (N.shiftl 0x8000 48) in
  let i := N.ldiff i (N.shiftl 0xf000 64) in
  N.lor i (N.shiftl 4 76).

Definition hex_digit (d : N) : ascii :=
  match String.get (N.to_nat d) "0123456789abcdef" with
  | Some c => c
  | None => "0"%char
  end.

(** ['%0wx' % n], for [n] below [16 ^ w] *)
Fixpoint hex (w : nat) (n : N) : string :=
  match w with
  | O => ""
  | S w' => hex w' (n / 16) ++ String (hex_digit (n mod 16)) ""
  end.

Definition str (u : N) : string :=
  let h := hex 32 u in
  substring 0 8 h ++ "-" ++ substring 8 4 h ++ "-" ++ substring 12 4 h
  ++ "-" ++ substring 16 4 h ++ "-" ++ substring 20 12 h.

Definition fresh (rnd : N) : string := str (uuid4 rnd).

End Uuid.

(** ** Tasks and the store

    A task is the dict the handlers build: five string fields and [status],
    which holds whatever parsed value the request carried. *)
Record task : Type := mk_task {
  id : string;
  title : string;
  description : string;
  status : json;
  created : string;
  updated : string
}.

Definition task_eqb (a b : task) : bool :=
  String.eqb (id a) (id b) && String.eqb (title a) (title b)
  && String.eqb (description a) (description b)
  && json_eqb (status a) (status b)
  && String.eqb (created a) (created b) && String.eqb (updated a) (updated b).

(** [t[key] = v] for the keys the handlers assign *)
Definition set_title (v : string) (t : task) : task :=
  mk_task (id t) v (description t) (status t) (created t) (updated t).
Definition set_description (v : string) (t : task) : task :=
  mk_task (id t) (title t) v (status t) (created t) (updated t).
Definition set_status (v : json) (t : task) : task :=
  mk_task (id t) (title t) (description t) v (created t) (updated t).
Definition set_updated (v : string) (t : task) : task :=
  mk_task (id t) (title t) (description t) (status t) (created t) v.

(** The preloaded demo tasks; [rnd1] and [rnd2] are the random bits of their
    two [uuid4] calls. *)
Definition initial_store (rnd1 rnd2 : N) : list task :=
  [ {| id := Uuid.fresh rnd1;
       title := "Finish REST API homework";
       description := "Build Flask CRUD endpoints for tasks";
       status := JStr "in_progress";
       created := "2025-09-30T10:00:00";
       updated := "2025-09-30T10:00:00" |};
    {| id := Uuid.fresh rnd2;
       title := "Prepare for software exam";
       description := "Revise Flask concepts and REST fundamentals";
       status := JStr "pending";
       created := "2025-09-30T09:00:00";
       updated := "2025-09-30T09:00:00" |} ].

(** A reference to a stored dict is its position in [task_store]:
    assignments through the reference change the list item itself. *)
Definition ref : Type := nat.

Fixpoint alter (f : task -> task) (r : ref) (l : list task) : list task :=
  match l, r with
  | [], _ => []
  | x :: l', O => f x :: l'
  | x :: l', S r' => x :: alter f r' l'
  end.

(** [next((t for t in task_store if t["id"] == tid), None)]: the first task
    with the id, as the reference and the dict it points to. *)
Fixpoint get_task (tid : string) (task_store : list task) : option (ref * task) :=
  match task_store with
  | [] => None
  | t :: l =>
      if String.eqb (id t) tid then Some (O, t)
      else match get_task tid l with
           | Some (r, t') => Some (S r, t')
           | None => None
           end
  end.

(** [l.remove(t)]: drops the first item equal to [t], [ValueError] when
    there is none.  The handler passes the dict [get_task] found, so every
    item before it differs from it in [id] already. *)
Fixpoint list_remove (t : task) (l : list task) : result (list task) :=
  match l with
  | [] => Raise ValueError
  | x :: l' =>
      if task_eqb x t then Return l'
      else let* r := list_remove t l' in Return (x :: r)
  end.

(** ** Handlers: state is [task_store], and an exception that escapes a view
    function leaves the store as the statements before it made it *)
Definition M (A : Type) : Type := list task -> result A * list task.

Definition ret {A : Type} (a : A) : M A := fun s => (Return a, s).
Definition bind {A B : Type} (m : M A) (k : A -> M B) : M B :=
  fun s =>
    match m s with
    | (Return a, s') => k a s'
    | (Raise e, s') => (Raise e, s')
    end.
Definition lift {A : Type} (r : result A) : M A := fun s => (r, s).
Definition read : M (list task) := fun s => (Return s, s).
Definition write (s' : list task) : M unit := fun _ => (Return tt, s').
Definition assign (r : ref) (f : task -> task) : M unit :=
  fun s => (Return tt, alter f r s).

Notation "x <- m ;; k" := (bind m (fun x => k))
  (at level 61, m at next level, right associativity).
Notation "m ;;; k" := (bind m (fun _ => k))
  (at level 61, right associativity).

(** The bodies passed to [jsonify], one constructor per shape, and the
    status code returned with them. *)
Inductive body : Type :=
| BTasks (tasks : list task) (total : nat)
| BTask (t : task)
| BTaskMsg (t : task) (message : string)
| BError (error message : string)
| BDeleted (message deleted : string)
| BCount (message : string) (count : nat)
| BHealth (total : nat) (time : string).

Definition response : Type := (body * nat)%type.

Definition list_tasks (status_arg : option string) : M response :=
  task_store <- read ;;
  match status_arg with
  | Some st =>
      if Str.nonempty st then
        let result := filter (fun t => json_eqb (status t) (JStr st)) task_store in
        ret (BTasks result (length result), 200)
      else ret (BTasks task_store (length task_store), 200)
  | None => ret (BTasks task_store (length task_store), 200)
  end.

Definition fetch_task (tid : string) : M response :=
  task_store <- read ;;
  match get_task tid task_store with
  | None => ret (BError "Not Found" ("No task with id " ++ tid), 404)
  | Some (_, t) => ret (BTask t, 200)
  end.

Definition remove_task (tid : string) : M response :=
  task_store <- read ;;
  match get_task tid task_store with
  | None => ret (BError "Not Found" ("No task with id " ++ tid), 404)
  | Some (_, t) =>
      rest <- lift (list_remove t task_store) ;;
      write rest ;;;
      ret (BDeleted "Task removed" tid, 200)
  end.

Definition remove_all : M response :=
  task_store <- read ;;
  let n := length task_store in
  write [] ;;;
  ret (BCount ("Removed " ++ Str.of_nat n ++ " tasks") n, 200).

Definition ping (now : string) : M response :=
  task_store <- read ;;
  ret (BHealth (length task_store) now, 200).

(** The three conditional assignments of [modify_task], on the dict behind
    the reference [r].

    [if "title" in data and data["title"].strip():
         t["title"] = data["title"].strip()] *)
Definition put_title (r : ref) (data : json) : M unit :=
  has_title <- lift (Py.contains "title" data) ;;
  if has_title
  then raw <- lift (Py.getitem data "title") ;;
       stripped <- lift (Py.strip raw) ;;
       if Str.nonempty stripped
       then raw' <- lift (Py.getitem data "title") ;;
            v <- lift (Py.strip raw') ;;
            assign r (set_title v)
       else ret tt
  else ret tt.

(** [if "description" in data:
         t["description"] = data["description"].strip()] *)
Definition put_description (r : ref) (data : json) : M unit :=
  has_description <- lift (Py.contains "description" data) ;;
  if has_description
  then raw <- lift (Py.getitem data "description") ;;
       v <- lift (Py.strip raw) ;;
       assign r (set_description v)
  else ret tt.

(** [if "status" in data: t["status"] = data["status"]] *)
Definition put_status (r : ref) (data : json) : M unit :=
  has_status <- lift (Py.contains "status" data) ;;
  if has_status
  then v <- lift (Py.getitem data "status") ;;
       assign r (set_status v)
  else ret tt.

(** What [modify_task] does once the payload is validated: the three
    assignments, the new [updated], and the answer with the dict as it then
    is. *)
Definition apply_update (r : ref) (t : task) (data : json) (now : string)
  : M response :=
  put_title r data ;;;
  put_description r data ;;;
  put_status r data ;;;
  assign r (set_updated now) ;;;
  task_store' <- read ;;
  ret (BTaskMsg (nth r task_store' t) "Task updated", 200).

Section Validation.

(** The set literal [{"pending", "in_progress", "completed"}], as the list of
    its members in the order the running interpreter iterates it; string
    hashing leaves that order open. *)
Variable allowed_status : list string.

(** [f"'{key}' is required and cannot be blank"] *)
Definition required_message (key : string) : string :=
  "'" ++ key ++ "' is required and cannot be blank".

(** [f"Status must be one of: {', '.join(allowed_status)}"] *)
Definition status_message : string :=
  "Status must be one of: " ++ Str.join ", " allowed_status.

(** The loop over [must_have], with its early return *)
Fixpoint check_required (payload : json) (must_have : list string)
  : result (option string) :=
  match must_have with
  | [] => Return None
  | key :: rest =>
      let* present := Py.contains key payload in
      let* blank :=
        (if present
         then let* v := Py.getitem payload key in Return (Py.str_blank v)
         else Return true) in
      if blank
      then Return (Some (required_message key))
      else check_required payload rest
  end.

Definition check_task_input (payload : json) (must_have : option (list string))
  : result (bool * string) :=
  let must_have := match must_have with Some l => l | None => ["title"] end in
  let* missing := check_required payload must_have in
  match missing with
  | Some msg => Return (false, msg)
  | None =>
      let* present := Py.contains "status" payload in
      let* bad :=
        (if present
         then let* v := Py.getitem payload "status" in
              let* ok := Py.in_set v allowed_status in Return (negb ok)
         else Return false) in
      if bad then Return (false, status_message) else Return (true, "")
  end.

(** [rnd] is the randomness [uuid4] reads, [now] the text of
    [datetime.now().isoformat()]. *)
Definition add_task (data : json) (rnd : N) (now : string) : M response :=
  if negb (Py.truthy data)
  then ret (BError "Bad Request" "JSON body required", 400)
  else
    chk <- lift (check_task_input data (Some ["title"])) ;;
    if negb (fst chk)
    then ret (BError "Validation Error" (snd chk), 400)
    else
      let new_id := Uuid.fresh rnd in
      raw_title <- lift (Py.getitem data "title") ;;
      new_title <- lift (Py.strip raw_title) ;;
      raw_description <- lift (Py.get data "description" (JStr "")) ;;
      new_description <- lift (Py.strip raw_description) ;;
      new_status <- lift (Py.get data "status" (JStr "pending")) ;;
      let new_task :=
        {| id := new_id; title := new_title; description := new_description;
           status := new_status; created := now; updated := now |} in
      task_store <- read ;;
      write (task_store ++ [new_task]) ;;;
      ret (BTaskMsg new_task "Task successfully created", 201).

Definition modify_task (tid : string) (data : json) (now : string) : M response :=
  task_store <- read ;;
  match get_task tid task_store with
  | None => ret (BError "Not Found" ("Task id " ++ tid ++ " not found"), 404)
  | Some (r, t) =>
      if negb (Py.truthy data)
      then ret (BError "Bad Request" "JSON body required", 400)
      else
        chk <- lift (check_task_input data (Some [])) ;;
        if negb (fst chk)
        then ret (BError "Validation Error" (snd chk), 400)
        else
          apply_update r t data now
  end.

(** One request to the service, with what the handler takes from the
    environment while serving it. *)
Inductive request : Type :=
| GetTasks (status_arg : option string)
| GetTask (tid : string)
| PostTask (data : json) (rnd : N) (now : string)
| PutTask (tid : string) (data : json) (now : string)
| DeleteTask (tid : string)
| DeleteTasks
| GetHealth (now : string).

Definition handle (q : request) : M response :=
  match q with
  | GetTasks a => list_tasks a
  | GetTask tid => fetch_task tid
  | PostTask data rnd now => add_task data rnd now
  | PutTask tid data now => modify_task tid data now
  | DeleteTask tid => remove_task tid
  | DeleteTasks => remove_all
  | GetHealth now => ping now
  end.

(** The stores the process can be in: the preloaded one, and any store a
    request leaves behind, whether the handler returned or raised. *)
Inductive reachable : list task -> Prop :=
| reach_init rnd1 rnd2 : reachable (initial_store rnd1 rnd2)
| reach_step q s : reachable s -> reachable (snd (handle q s)).

End Validation.

(** ** Vocabulary of the statements *)

Definition enum : list string := ["pending"; "in_progress"; "completed"].

(** A stored status that is one of the three enum strings *)
Definition valid_status (v : json) : Prop :=
  v = JStr "pending" \/ v = JStr "in_progress" \/ v = JStr "completed".

Definition is_str (v : json) : Prop := exists s, v = JStr s.

(** Values [hash] accepts: everything but lists and dicts *)
Definition hashable (v : json) : Prop :=
  match v with
  | JArr _ | JObj _ => False
  | _ => True
  end.

(** The field [key] of a dict with these items is missing, or satisfies [P] *)
Definition absent_or (P : json -> Prop) (key : string)
    (items : list (string * json)) : Prop :=
  match assoc key items with
  | None => True
  | Some v => P v
  end.

(** A computation whose whole effect on the store, whether it returns or
    raises, is to change the dict behind [r] by a function in the class [Q] *)
Definition touches (r : ref) (Q : (task -> task) -> Prop) {A : Type}
    (m : M A) : Prop :=
  forall s, exists f, snd (m s) = alter f r s /\ Q f.

(** A class of changes that has the identity and is closed under sequencing *)
Definition change_class (Q : (task -> task) -> Prop) : Prop :=
  Q (fun t => t) /\
  forall f g, Q f -> Q g -> Q (fun t => g (f t)).

(** The update as the specification words it: each of title, description
    and status that the input supplies is applied, the title trimmed and
    only if something is left, the description trimmed, the status as it
    is; [updated] becomes the current timestamp; id and [created] stay. *)
Definition merge_fields (items : list (string * json)) (now : string)
    (t : task) : task :=
  {| id := id t;
     title := match assoc "title" items with
              | Some (JStr x) =>
                  if Str.nonempty (Str.strip x) then Str.strip x else title t
              | _ => title t
              end;
     description := match assoc "description" items with
                    | Some (JStr d) => Str.strip d
                    | _ => description t
                    end;
     status := match assoc "status" items with
               | Some v => v
               | None => status t
               end;
     created := created t;
     updated := now |}.

(** A stored task whose status is in the enum *)
Definition status_ok (t : task) : Prop := valid_status (status t).

(** The three outcomes the handlers report for a request they refuse *)
Definition not_found (message : string) : response :=
  (BError "Not Found" message, 404).
Definition bad_request : response :=
  (BError "Bad Request" "JSON body required", 400).
Definition validation_error (message : string) : response :=
  (BError "Validation Error" message, 400).

(** Sample inputs on which the statements below are run *)
Definition demo_store : list task := initial_store 1 2.
Definition demo_now : string := "2026-01-15T08:30:00".
Definition demo_id : string := Uuid.fresh 1.
Definition demo_task : task :=
  {| id := demo_id;
     title := "Finish REST API homework";
     description := "Build Flask CRUD endpoints for tasks";
     status := JStr "in_progress";
     created := "2025-09-30T10:00:00";
     updated := "2025-09-30T10:00:00" |}.

(** Stored text as the handlers leave it: a title with something in it,
    and title and description with no white space left at either end *)
Definition text_ok (t : task) : Prop :=
  title t <> "" /\ Str.strip (title t) = title t /\
  Str.strip (description t) = description t.

(** A payload [add_task] goes through with: an object whose title is the
    string [x], not blank, with a string description or none and an enum
    status or none *)
Definition creatable (data : json) (items : list (string * json))
    (x : string) : Prop :=
  data = JObj items /\ assoc "title" items = Some (JStr x) /\
  Str.strip x <> "" /\
  absent_or is_str "description" items /\
  absent_or valid_status "status" items.

(** The dict [add_task] builds from such a payload *)
Definition created_task (items : list (string * json)) (x : string)
    (rnd : N) (now : string) : task :=
  {| id := Uuid.fresh rnd;
     title := Str.strip x;
     description := match assoc "description" items with
                    | Some (JStr d) => Str.strip d
                    | _ => ""
                    end;
     status := match assoc "status" items with
               | Some v => v
               | None => JStr "pending"
               end;
     created := now;
     updated := now |}.

(** [key not in payload or not str(payload[key]).strip()] on a dict *)
Definition lacks (items : list (string * json)) (key : string) : bool :=
  match assoc key items with
  | None => true
  | Some v => Py.str_blank v
  end.

(** The stores reached when no creation is handed an id the store already
    holds, the two preloaded ids being different *)
Inductive reachable_fresh (allowed_status : list string) : list task -> Prop :=
| fresh_init rnd1 rnd2 :
    Uuid.fresh rnd1 <> Uuid.fresh rnd2 ->
    reachable_fresh allowed_status (initial_store rnd1 rnd2)
| fresh_step q s :
    reachable_fresh allowed_status s ->
    (forall data rnd now,
       q = PostTask data rnd now -> ~ In (Uuid.fresh rnd) (map id s)) ->
    reachable_fresh allowed_status (snd (handle allowed_status q s)).

(** The reading of the clock a request takes, for the handlers that take
    one *)
Definition request_time (q : request) : option string :=
  match q with
  | PostTask _ _ now => Some now
  | PutTask _ _ now => Some now
  | GetHealth now => Some now
  | _ => None
  end.

(** The timestamps of a task are in order, and not after the clock *)
Definition stamps_ok (clock : string) (t : task) : Prop :=
  String.leb (created t) (updated t) = true /\
  String.leb (updated t) clock = true.

(** Runs of the service on a clock that never goes back: it starts no
    earlier than the later preloaded timestamp, and each request is served
    at a reading [now] not before the last one.  [timed_run clock s]: the
    store is [s] and the last reading was [clock]. *)
Inductive timed_run (allowed_status : list string)
  : string -> list task -> Prop :=
| timed_init rnd1 rnd2 clock :
    String.leb "2025-09-30T10:00:00" clock = true ->
    timed_run allowed_status clock (initial_store rnd1 rnd2)
| timed_step q clock now s :
    timed_run allowed_status clock s ->
    String.leb clock now = true ->
    (forall x, request_time q = Some x -> x = now) ->
    timed_run allowed_status now (snd (handle allowed_status q s)).

(** ** Lemmas on the Python layer *)

Lemma json_eqb_str (v : json) (s : string) :
  json_eqb v (JStr s) = true <-> v = JStr s.
Proof.
  destruct v; simpl; split; intro H; try discriminate.
  - apply String.eqb_eq in H. now subst.
  - injection H as ->. apply String.eqb_refl.
Qed.

Lemma float_eqb_refl (f : spec_float) : float_eqb f f = true.
Proof.
  destruct f; simpl; rewrite ?eqb_reflx, ?Pos.eqb_refl, ?Z.eqb_refl; reflexivity.
Qed.

Lemma json_eqb_refl : forall a : json, json_eqb a a = true.
Proof.
  fix IH 1. intros [ | b | n | f | s | l | items ]; simpl.
  - reflexivity.
  - apply eqb_reflx.
  - apply Z.eqb_refl.
  - apply float_eqb_refl.
  - apply String.eqb_refl.
  - induction l as [ | x l IHl ]; [ reflexivity | ].
    now rewrite IH, IHl.
  - induction items as [ | [k v] items IHl ]; [ reflexivity | ].
    now rewrite String.eqb_refl, IH, IHl.
Qed.

Lemma task_eqb_refl (t : task) : task_eqb t t = true.
Proof.
  unfold task_eqb. now rewrite !String.eqb_refl, json_eqb_refl.
Qed.

Lemma task_eqb_id (a b : task) : task_eqb a b = true -> id a = id b.
Proof.
  unfold task_eqb. rewrite !andb_true_iff.
  intros [[[[[H _] _] _] _] _]. now apply String.eqb_eq.
Qed.

Lemma uuid_fresh_nonempty (rnd : N) : Uuid.fresh rnd <> "".
Proof.
  unfold Uuid.fresh, Uuid.str.
  destruct (substring 0 8 (Uuid.hex 32 (Uuid.uuid4 rnd))); discriminate.
Qed.

Lemma nonempty_true (x : string) : Str.nonempty x = true <-> x <> "".
Proof.
  destruct x; simpl; split; intros H; try easy.
Qed.

(** ** Lemmas on the store *)

Lemma get_task_found (tid : string) (s : list task) (r : ref) (t : task) :
  get_task tid s = Some (r, t) ->
  nth_error s r = Some t /\ id t = tid /\
  forall j x, j < r -> nth_error s j = Some x -> id x <> tid.
Proof.
  revert r. induction s as [ | a s IH ]; intros r; simpl; [ discriminate | ].
  destruct (String.eqb (id a) tid) eqn:E.
  - intros [= <- <-]. apply String.eqb_eq in E.
    repeat split; auto. intros j x Hj. lia.
  - destruct (get_task tid s) as [ [r' t'] | ]; [ | discriminate ].
    intros [= <- <-]. destruct (IH r' eq_refl) as (Hn & Hi & Hb).
    repeat split; auto.
    intros [ | j ] x Hj; simpl.
    + intros [= <-]. now apply String.eqb_neq.
    + apply Hb. lia.
Qed.

Lemma get_task_none (tid : string) (s : list task) :
  get_task tid s = None <-> ~ In tid (map id s).
Proof.
  induction s as [ | a s IH ]; simpl.
  - tauto.
  - destruct (String.eqb (id a) tid) eqn:E.
    + apply String.eqb_eq in E. split; [ discriminate | tauto ].
    + apply String.eqb_neq in E.
      destruct (get_task tid s) as [ [r t] | ].
      * split; [ discriminate | ]. intros H. exfalso. apply H. right.
        destruct (in_dec string_dec tid (map id s)) as [ Hi | Hi ]; auto.
        apply IH in Hi. discriminate.
      * split; auto. intros _ [ H | H ]; [ auto | ]. now apply IH.
Qed.

Lemma get_task_in (tid : string) (s : list task) :
  In tid (map id s) -> exists r t, get_task tid s = Some (r, t).
Proof.
  intros H. destruct (get_task tid s) as [ [r t] | ] eqn:E; eauto.
  apply get_task_none in E. contradiction.
Qed.

Lemma alter_length (f : task -> task) (r : ref) (s : list task) :
  length (alter f r s) = length s.
Proof.
  revert r. induction s as [ | a s IH ]; intros [ | r ]; simpl; auto.
Qed.

Lemma alter_same (f : task -> task) (r : ref) (s : list task) (t : task) :
  nth_error s r = Some t -> nth_error (alter f r s) r = Some (f t).
Proof.
  revert r. induction s as [ | a s IH ]; intros [ | r ]; simpl;
    try discriminate; auto.
  now intros [= ->].
Qed.

Lemma alter_other (f : task -> task) (r j : ref) (s : list task) :
  j <> r -> nth_error (alter f r s) j = nth_error s j.
Proof.
  revert r j. induction s as [ | a s IH ]; intros [ | r ] [ | j ] H; simpl;
    auto; try lia.
Qed.

Lemma alter_alter (f g : task -> task) (r : ref) (s : list task) :
  alter g r (alter f r s) = alter (fun t => g (f t)) r s.
Proof.
  revert r. induction s as [ | a s IH ]; intros [ | r ]; simpl; auto.
  now rewrite IH.
Qed.

Lemma alter_ext (f g : task -> task) (r : ref) (s : list task) (t : task) :
  nth_error s r = Some t -> f t = g t -> alter f r s = alter g r s.
Proof.
  revert r. induction s as [ | a s IH ]; intros [ | r ]; simpl;
    try discriminate.
  - now intros [= ->] ->.
  - intros H1 H2. now rewrite (IH r H1 H2).
Qed.

Lemma alter_Forall (P : task -> Prop) (f : task -> task) (r : ref)
    (s : list task) :
  (forall t, P t -> P (f t)) -> Forall P s -> Forall P (alter f r s).
Proof.
  intros Hf. revert r. induction s as [ | a s IH ]; intros [ | r ] H; simpl;
    auto; inversion H; subst; constructor; auto.
Qed.

Lemma nth_alter (f : task -> task) (r : ref) (s : list task) (t d : task) :
  nth_error s r = Some t -> nth r (alter f r s) d = f t.
Proof.
  intros H. apply nth_error_nth. now apply alter_same.
Qed.

(** [task_store.remove(t)] for the dict [get_task] found takes out the item
    at its position and nothing else. *)
Lemma list_remove_found (tid : string) (s : list task) (r : ref) (t : task) :
  get_task tid s = Some (r, t) ->
  list_remove t s = Return (firstn r s ++ skipn (S r) s)%list.
Proof.
  revert r. induction s as [ | a s IH ]; intros r; simpl; [ discriminate | ].
  destruct (String.eqb (id a) tid) eqn:E.
  - intros [= <- <-]. now rewrite task_eqb_refl.
  - destruct (get_task tid s) as [ [r' t'] | ] eqn:G; [ | discriminate ].
    intros [= <- <-].
    destruct (task_eqb a t') eqn:Q.
    + apply task_eqb_id in Q.
      destruct (get_task_found _ _ _ _ G) as (_ & Hi & _).
      apply String.eqb_neq in E. congruence.
    + now rewrite (IH r' eq_refl).
Qed.

Lemma firstn_skipn_middle (s : list task) (r : ref) (t : task) :
  nth_error s r = Some t -> s = (firstn r s ++ t :: skipn (S r) s)%list.
Proof.
  revert r. induction s as [ | a s IH ]; intros [ | r ]; simpl;
    try discriminate.
  - now intros [= ->].
  - intros H. f_equal. now apply IH.
Qed.

(** ** Listing *)

(** C3, as the code has it: for every store and every supplied non-empty
    filter string, [list_tasks] answers 200 with exactly the stored tasks
    whose status equals the filter, in store order (possibly none), and
    [total] their number; with the filter absent, or supplied but empty, it
    answers with the whole store in store order.  It never raises and never
    changes the store. *)
Theorem list_tasks_filter (status_arg : option string) (store : list task) :
  exists result,
    list_tasks status_arg store
      = (Return (BTasks result (length result), 200), store) /\
    (forall st, status_arg = Some st -> st <> "" ->
       result = filter (fun t => json_eqb (status t) (JStr st)) store /\
       forall t, In t result <-> In t store /\ status t = JStr st) /\
    (status_arg = None \/ status_arg = Some "" -> result = store).
Proof.
  destruct status_arg as [ [ | c st ] | ].
  - exists store. split; [ reflexivity | split; [ | reflexivity ] ].
    intros st [= <-] Hne. now destruct Hne.
  - exists (filter (fun t => json_eqb (status t) (JStr (String c st))) store).
    split; [ reflexivity | split ].
    + intros st' [= <-] _. split; [ reflexivity | ].
      intros t. rewrite filter_In, json_eqb_str. tauto.
    + intros [ H | H ]; discriminate.
  - exists store. split; [ reflexivity | split; [ | reflexivity ] ].
    intros st Hst. discriminate Hst.
Qed.

Lemma list_tasks_filter_witness :
  exists result,
    list_tasks (Some "pending") demo_store
      = (Return (BTasks result (length result), 200), demo_store) /\
    result = filter (fun t => json_eqb (status t) (JStr "pending")) demo_store /\
    length result = 1.
Proof.
  destruct (list_tasks_filter (Some "pending") demo_store) as (res & H & Hf & _).
  exists res. split; [ exact H | ].
  destruct (Hf "pending" eq_refl) as [ -> _ ]; [ discriminate | ].
  split; reflexivity.
Defined.

(** C3 as stated fails for the supplied filter [""]: the preloaded store has
    no task whose status is the empty string, yet both tasks are returned. *)
Lemma list_tasks_empty_filter_returns_all :
  ~ (forall (st : string) (store : list task),
       let result := filter (fun t => json_eqb (status t) (JStr st)) store in
       fst (list_tasks (Some st) store)
         = Return (BTasks result (length result), 200)).
Proof.
  intros H. specialize (H "" demo_store). discriminate H.
Qed.

(** ** Deleting *)



(** ** The conditional assignments of [modify_task] *)

Lemma alter_id (r : ref) (s : list task) : alter (fun t => t) r s = s.
Proof.
  revert r. induction s as [ | a s IH ]; intros [ | r ]; simpl; auto.
  now rewrite IH.
Qed.

Lemma put_title_obj (r : ref) (items : list (string * json)) (s : list task) :
  put_title r (JObj items) s =
  match assoc "title" items with
  | None => (Return tt, s)
  | Some (JStr x) =>
      if Str.nonempty (Str.strip x)
      then (Return tt, alter (set_title (Str.strip x)) r s)
      else (Return tt, s)
  | Some _ => (Raise AttributeError, s)
  end.
Proof.
  unfold put_title, bind, lift, ret, assign, Py.contains, Py.getitem.
  destruct (assoc "title" items) as [ v | ]; [ | reflexivity ].
  destruct v; try reflexivity.
  unfold Py.strip. now destruct (Str.nonempty (Str.strip s0)).
Qed.

Lemma put_description_obj (r : ref) (items : list (string * json))
    (s : list task) :
  put_description r (JObj items) s =
  match assoc "description" items with
  | None => (Return tt, s)
  | Some (JStr x) => (Return tt, alter (set_description (Str.strip x)) r s)
  | Some _ => (Raise AttributeError, s)
  end.
Proof.
  unfold put_description, bind, lift, ret, assign, Py.contains, Py.getitem.
  destruct (assoc "description" items) as [ v | ]; [ | reflexivity ].
  now destruct v.
Qed.

Lemma put_status_obj (r : ref) (items : list (string * json)) (s : list task) :
  put_status r (JObj items) s =
  match assoc "status" items with
  | None => (Return tt, s)
  | Some v => (Return tt, alter (set_status v) r s)
  end.
Proof.
  unfold put_status, bind, lift, ret, assign, Py.contains, Py.getitem.
  now destruct (assoc "status" items).
Qed.

Lemma getitem_contains (data : json) (key : string) (v : json) :
  Py.getitem data key = Return v -> Py.contains key data = Return true.
Proof.
  destruct data; simpl; try discriminate.
  now destruct (assoc key items).
Qed.

(** Whatever the payload, each step either raises before it assigns, or
    leaves the store alone, or assigns its one field. *)
Lemma put_title_cases (r : ref) (data : json) (s : list task) :
  (exists e, put_title r data s = (Raise e, s)) \/
  put_title r data s = (Return tt, s) \/
  (exists raw, Py.getitem data "title" = Return (JStr raw) /\
               Str.strip raw <> "" /\
               put_title r data s
                 = (Return tt, alter (set_title (Str.strip raw)) r s)).
Proof.
  unfold put_title, bind, lift, ret, assign.
  destruct (Py.contains "title" data) as [ [ | ] | e ]; eauto.
  destruct (Py.getitem data "title") as [ v | e ]; eauto.
  destruct v as [ | b | n | f | raw | l | items ]; cbn [Py.strip]; eauto.
  destruct (Str.nonempty (Str.strip raw)) eqn:E; eauto.
  apply nonempty_true in E. eauto 8.
Qed.

Lemma put_description_cases (r : ref) (data : json) (s : list task) :
  (exists e, put_description r data s = (Raise e, s)) \/
  put_description r data s = (Return tt, s) \/
  (exists raw, Py.getitem data "description" = Return (JStr raw) /\
               put_description r data s
                 = (Return tt, alter (set_description (Str.strip raw)) r s)).
Proof.
  unfold put_description, bind, lift, ret, assign.
  destruct (Py.contains "description" data) as [ [ | ] | e ]; eauto.
  destruct (Py.getitem data "description") as [ v | e ]; eauto.
  destruct v as [ | b | n | f | raw | l | items ]; cbn [Py.strip]; eauto 8.
Qed.

Lemma put_status_cases (r : ref) (data : json) (s : list task) :
  (exists e, put_status r data s = (Raise e, s)) \/
  put_status r data s = (Return tt, s) \/
  (exists v, Py.getitem data "status" = Return v /\
             put_status r data s = (Return tt, alter (set_status v) r s)).
Proof.
  unfold put_status, bind, lift, ret, assign.
  destruct (Py.contains "status" data) as [ [ | ] | e ]; eauto.
  destruct (Py.getitem data "status") as [ v | e ]; eauto 8.
Qed.

(** ** Composing effects on one dict *)

Section Touches.

Variable r : ref.
Variable Q : (task -> task) -> Prop.
Hypothesis Q_class : change_class Q.

(** The store is as it was: the change is the identity. *)
Ltac store_kept :=
  exists (fun t : task => t); rewrite alter_id;
  split; [ reflexivity | apply Q_class ].

Lemma touches_ret {A : Type} (a : A) : touches r Q (ret a).
Proof.
  intros s. store_kept.
Qed.

Lemma touches_assign (f : task -> task) : Q f -> touches r Q (assign r f).
Proof.
  intros H s. exists f. now split.
Qed.

(** Sequencing; the continuation is only run on values the first part
    returned. *)
Lemma touches_bind {A B : Type} (m : M A) (k : A -> M B) :
  touches r Q m ->
  (forall a, (exists s, fst (m s) = Return a) -> touches r Q (k a)) ->
  touches r Q (bind m k).
Proof.
  intros Hm Hk s. unfold bind.
  destruct (Hm s) as (f & Hf & Qf).
  destruct (m s) as [ [ a | e ] s1 ] eqn:E; simpl in Hf; subst s1.
  - assert (Ha : exists s, fst (m s) = Return a) by (exists s; now rewrite E).
    destruct (Hk a Ha (alter f r s)) as (g & Hg & Qg).
    exists (fun t => g (f t)). split.
    + now rewrite Hg, alter_alter.
    + now apply Q_class.
  - exists f. now split.
Qed.

Section Steps.

Variable data : json.
Hypothesis Q_title :
  forall raw, Py.getitem data "title" = Return (JStr raw) ->
              Str.strip raw <> "" -> Q (set_title (Str.strip raw)).
Hypothesis Q_description :
  forall raw, Py.getitem data "description" = Return (JStr raw) ->
              Q (set_description (Str.strip raw)).
Hypothesis Q_status :
  forall v, Py.getitem data "status" = Return v -> Q (set_status v).

Lemma touches_put_title : touches r Q (put_title r data).
Proof.
  intros s.
  destruct (put_title_cases r data s)
    as [ (e & E) | [ E | (raw & Hg & Hne & E) ] ]; rewrite E; simpl.
  - store_kept.
  - store_kept.
  - exists (set_title (Str.strip raw)). split; auto.
Qed.

Lemma touches_put_description : touches r Q (put_description r data).
Proof.
  intros s.
  destruct (put_description_cases r data s)
    as [ (e & E) | [ E | (raw & Hg & E) ] ]; rewrite E; simpl.
  - store_kept.
  - store_kept.
  - exists (set_description (Str.strip raw)). split; auto.
Qed.

Lemma touches_put_status : touches r Q (put_status r data).
Proof.
  intros s.
  destruct (put_status_cases r data s)
    as [ (e & E) | [ E | (v & Hg & E) ] ]; rewrite E; simpl.
  - store_kept.
  - store_kept.
  - exists (set_status v). split; auto.
Qed.

(** The three assignments in a row *)
Lemma touches_assignments :
  touches r Q
    (put_title r data ;;; put_description r data ;;; put_status r data).
Proof.
  apply touches_bind; [ apply touches_put_title | intros _ _ ].
  apply touches_bind; [ apply touches_put_description | intros _ _ ].
  apply touches_put_status.
Qed.

End Steps.

End Touches.

(** ** The update once validated *)

Lemma apply_update_run (r : ref) (t : task) (data : json) (now : string)
    (s : list task) :
  apply_update r t data now s =
  match (put_title r data ;;; put_description r data ;;; put_status r data) s with
  | (Return _, s1) =>
      (Return (BTaskMsg (nth r (alter (set_updated now) r s1) t) "Task updated",
               200),
       alter (set_updated now) r s1)
  | (Raise e, s1) => (Raise e, s1)
  end.
Proof.
  unfold apply_update, bind.
  destruct (put_title r data s) as [ [ u1 | e1 ] s1 ]; [ | reflexivity ].
  destruct (put_description r data s1) as [ [ u2 | e2 ] s2 ]; [ | reflexivity ].
  destruct (put_status r data s2) as [ [ u3 | e3 ] s3 ]; reflexivity.
Qed.

(** Either all three assignments went through, [updated] was set and the
    answer carries the dict as changed, or one of them raised and the store
    keeps the assignments made before it. *)
Lemma apply_update_effect (Q : (task -> task) -> Prop) (r : ref) (t : task)
    (data : json) (now : string) (s : list task) :
  change_class Q ->
  (forall raw, Py.getitem data "title" = Return (JStr raw) ->
               Str.strip raw <> "" -> Q (set_title (Str.strip raw))) ->
  (forall raw, Py.getitem data "description" = Return (JStr raw) ->
               Q (set_description (Str.strip raw))) ->
  (forall v, Py.getitem data "status" = Return v -> Q (set_status v)) ->
  nth_error s r = Some t ->
  exists g, Q g /\
    (apply_update r t data now s
       = (Return (BTaskMsg (set_updated now (g t)) "Task updated", 200),
          alter (fun x => set_updated now (g x)) r s)
     \/ exists e, apply_update r t data now s = (Raise e, alter g r s)).
Proof.
  intros HQ Ht Hd Hs Hn. rewrite apply_update_run.
  destruct (touches_assignments r Q HQ data Ht Hd Hs s) as (g & Hg & Qg).
  exists g. split; [ exact Qg | ].
  destruct ((put_title r data ;;; put_description r data ;;; put_status r data) s)
    as [ [ u | e ] s1 ]; simpl in Hg; subst s1.
  - left. rewrite alter_alter.
    now rewrite (nth_alter _ _ _ _ t Hn).
  - right. now exists e.
Qed.

(** ** Validation *)

Section Properties.

Variable allowed_status : list string.
Hypothesis allowed_status_members : Permutation allowed_status enum.

Lemma member_valid (v : json) :
  existsb (fun x => json_eqb v (JStr x)) allowed_status = true
  <-> valid_status v.
Proof.
  rewrite existsb_exists. split.
  - intros (x & Hx & E). apply json_eqb_str in E. subst v.
    apply (Permutation_in _ allowed_status_members) in Hx.
    unfold valid_status. simpl in Hx.
    destruct Hx as [ <- | [ <- | [ <- | [] ] ] ]; auto.
  - intros H.
    assert (exists x, In x enum /\ v = JStr x) as (x & Hx & ->).
    { unfold enum. destruct H as [ -> | [ -> | -> ] ]; eexists; simpl; eauto. }
    exists x. split; [ | now apply json_eqb_str ].
    apply (Permutation_in _ (Permutation_sym allowed_status_members) Hx).
Qed.

Lemma in_set_true (v : json) :
  Py.in_set v allowed_status = Return true -> valid_status v.
Proof.
  intros H. apply member_valid.
  destruct v; simpl in H; try discriminate; now injection H.
Qed.

Lemma in_set_valid (v : json) :
  valid_status v -> Py.in_set v allowed_status = Return true.
Proof.
  intros H. pose proof (proj2 (member_valid v) H) as E.
  destruct H as [ -> | [ -> | -> ] ]; unfold Py.in_set; now rewrite E.
Qed.

Lemma in_set_invalid (v : json) :
  hashable v -> ~ valid_status v -> Py.in_set v allowed_status = Return false.
Proof.
  intros Hh Hv.
  destruct (existsb (fun x => json_eqb v (JStr x)) allowed_status) eqn:E.
  - apply member_valid in E. contradiction.
  - destruct v; simpl in *; try contradiction; now rewrite E.
Qed.

(** The status half of [check_task_input] on a dict *)
Lemma check_update_obj (items : list (string * json)) :
  check_task_input allowed_status (JObj items) (Some []) =
  match assoc "status" items with
  | None => Return (true, "")
  | Some v =>
      let* ok := Py.in_set v allowed_status in
      if ok then Return (true, "")
      else Return (false, status_message allowed_status)
  end.
Proof.
  unfold check_task_input. simpl.
  destruct (assoc "status" items) as [ v | ]; [ | reflexivity ].
  simpl. destruct (Py.in_set v allowed_status) as [ [ | ] | e ]; reflexivity.
Qed.

(** The title half goes first *)
Lemma check_create_obj (items : list (string * json)) :
  check_task_input allowed_status (JObj items) (Some ["title"]) =
  match assoc "title" items with
  | None => Return (false, required_message "title")
  | Some v =>
      if Py.str_blank v then Return (false, required_message "title")
      else check_task_input allowed_status (JObj items) (Some [])
  end.
Proof.
  unfold check_task_input. simpl.
  destruct (assoc "title" items) as [ v | ]; [ | reflexivity ].
  simpl. destruct (Py.str_blank v); reflexivity.
Qed.

(** A payload that passed validation carries, under ["status"], an enum
    value or nothing. *)
Lemma check_passed_status (data : json) (must_have : option (list string))
    (msg : string) (v : json) :
  check_task_input allowed_status data must_have = Return (true, msg) ->
  Py.getitem data "status" = Return v ->
  valid_status v.
Proof.
  unfold check_task_input. intros H Hg.
  pose proof (getitem_contains _ _ _ Hg) as Hc.
  destruct (check_required _ _) as [ [ m | ] | e ]; simpl in H;
    try discriminate.
  rewrite Hc in H. simpl in H. rewrite Hg in H. simpl in H.
  destruct (Py.in_set v allowed_status) as [ [ | ] | e ] eqn:E; simpl in H;
    try discriminate.
  now apply in_set_true.
Qed.

(** A payload that passed the title check is a dict with a ["title"]. *)
Lemma check_passed_title (data : json) (msg : string) :
  check_task_input allowed_status data (Some ["title"]) = Return (true, msg) ->
  exists items v, data = JObj items /\ assoc "title" items = Some v.
Proof.
  unfold check_task_input. simpl. intros H.
  destruct data as [ | b | n | f | s | l | items ]; try discriminate.
  - cbn [Py.contains rbind Py.getitem] in H.
    destruct (Str.contains "title" s); discriminate.
  - cbn [Py.contains rbind Py.getitem] in H.
    destruct (existsb _ l); discriminate.
  - destruct (assoc "title" items) as [ v | ] eqn:E; eauto.
    cbn [Py.contains rbind] in H. rewrite E in H. discriminate.
Qed.

(** ** Updating *)

Lemma modify_task_found (tid : string) (r : ref) (t : task) (data : json)
    (now : string) (store : list task) :
  get_task tid store = Some (r, t) ->
  modify_task allowed_status tid data now store =
  if negb (Py.truthy data) then (Return bad_request, store)
  else match check_task_input allowed_status data (Some []) with
       | Return (true, _) => apply_update r t data now store
       | Return (false, msg) => (Return (validation_error msg), store)
       | Raise e => (Raise e, store)
       end.
Proof.
  intros G. unfold modify_task, bind, read, ret, lift. rewrite G.
  destruct (negb (Py.truthy data)); [ reflexivity | ].
  destruct (check_task_input allowed_status data (Some []))
    as [ [ [ | ] msg ] | e ]; reflexivity.
Qed.

(** C9: for every id that no stored task has and every payload, a missing
    or unparsable body included, [modify_task] answers Not Found; the lookup
    comes before the payload is looked at, and the store stays as it was. *)
Theorem modify_task_unknown_id (tid : string) (data : json) (now : string)
    (store : list task) :
  ~ In tid (map id store) ->
  modify_task allowed_status tid data now store
    = (Return (not_found ("Task id " ++ tid ++ " not found")), store).
Proof.
  intros H. apply get_task_none in H.
  unfold modify_task, bind, read, ret. now rewrite H.
Qed.

(** C2, as the code has it: for an existing id, the empty object is refused
    as a Bad Request and the store stays as it was; an object that is not
    empty and supplies none of [title], [description] and [status] is
    accepted: the answer is 200 with the task, of which only [updated]
    changed, to the current timestamp, and no other task changed. *)
Theorem modify_task_no_fields (tid : string) (r : ref) (t : task)
    (now : string) (store : list task) :
  get_task tid store = Some (r, t) ->
  modify_task allowed_status tid (JObj []) now store
    = (Return bad_request, store) /\
  forall items,
    items <> [] ->
    assoc "title" items = None ->
    assoc "description" items = None ->
    assoc "status" items = None ->
    let t' := set_updated now t in
    modify_task allowed_status tid (JObj items) now store
      = (Return (BTaskMsg t' "Task updated", 200), alter (fun _ => t') r store)
    /\ id t' = id t /\ title t' = title t /\ description t' = description t
    /\ status t' = status t /\ created t' = created t /\ updated t' = now.
Proof.
  intros G. split.
  - now rewrite (modify_task_found _ _ _ _ _ _ G).
  - intros items Hne Ht Hd Hs t'. split; [ | now repeat split ].
    rewrite (modify_task_found _ _ _ _ _ _ G).
    destruct items as [ | kv items ]; [ contradiction | ].
    cbn [Py.truthy negb]. rewrite check_update_obj, Hs.
    rewrite apply_update_run. unfold bind.
    rewrite put_title_obj, Ht, put_description_obj, Hd, put_status_obj, Hs.
    destruct (get_task_found _ _ _ _ G) as (Hn & _).
    rewrite (nth_alter _ _ _ _ t Hn). f_equal.
    now apply alter_ext with (t := t).
Qed.

(** C4 fails on the code: a payload whose title is the number 123 passes
    [check_task_input], and [add_task] then raises [AttributeError] when it
    strips the title; nothing is stored. *)
Theorem add_task_non_string_title_raises (rnd : N) (now : string)
    (store : list task) :
  check_task_input allowed_status (JObj [("title", JInt 123)]) (Some ["title"])
    = Return (true, "") /\
  add_task allowed_status (JObj [("title", JInt 123)]) rnd now store
    = (Raise AttributeError, store).
Proof.
  split; reflexivity.
Qed.

(** ** Creating *)

(** C1, as the code has it: for every payload whose title is a string that
    is not blank after trimming, whose description, if present, is a string,
    and whose status, if present, is one of the three enum values,
    [add_task] answers 201 with a task whose id is the string of the newly
    generated uuid, which is not empty and is taken as it comes, without
    being compared with the ids already stored, whose title is the trimmed
    input title, whose description is the trimmed input description (empty
    if absent), whose status is the input status (["pending"] if absent),
    whose [created] and [updated] are the same timestamp; and the task is
    appended at the end of the store, the tasks before it unchanged. *)
Theorem add_task_success (items : list (string * json)) (x : string)
    (rnd : N) (now : string) (store : list task) :
  assoc "title" items = Some (JStr x) ->
  Str.strip x <> "" ->
  absent_or is_str "description" items ->
  absent_or valid_status "status" items ->
  exists t,
    add_task allowed_status (JObj items) rnd now store
      = (Return (BTaskMsg t "Task successfully created", 201),
         (store ++ [t])%list) /\
    id t = Uuid.fresh rnd /\ id t <> "" /\
    title t = Str.strip x /\
    description t = match assoc "description" items with
                    | Some (JStr d) => Str.strip d
                    | _ => ""
                    end /\
    status t = match assoc "status" items with
               | Some v => v
               | None => JStr "pending"
               end /\
    created t = updated t /\ updated t = now.
Proof.
  intros Ht Hx Hd Hs.
  assert (Hchk : check_task_input allowed_status (JObj items) (Some ["title"])
                 = Return (true, "")).
  { rewrite check_create_obj, Ht. cbn [Py.str_blank].
    apply nonempty_true in Hx. rewrite Hx. cbn [negb].
    rewrite check_update_obj. unfold absent_or in Hs.
    destruct (assoc "status" items) as [ v | ]; [ | reflexivity ].
    now rewrite (in_set_valid v Hs). }
  assert (Htr : Py.truthy (JObj items) = true).
  { destruct items; [ discriminate Ht | reflexivity ]. }
  unfold add_task. rewrite Htr. cbn [negb].
  unfold bind, lift, read, write, ret. rewrite Hchk. cbn [fst snd negb].
  unfold Py.getitem, Py.get. rewrite Ht. cbn [Py.strip].
  unfold absent_or in Hd.
  destruct (assoc "description" items) as [ d | ].
  - destruct Hd as (d' & ->). cbn [Py.strip].
    destruct (assoc "status" items) as [ v | ];
      eexists; (split; [ reflexivity | ]); cbn [id title description status created updated];
      repeat split; auto using uuid_fresh_nonempty.
  - cbn [Py.strip].
    destruct (assoc "status" items) as [ v | ];
      eexists; (split; [ reflexivity | ]); cbn [id title description status created updated];
      repeat split; auto using uuid_fresh_nonempty.
Qed.


(** ** Updating with a well-typed object *)

Lemma apply_update_typed (r : ref) (t : task) (items : list (string * json))
    (now : string) (s : list task) :
  nth_error s r = Some t ->
  absent_or is_str "title" items ->
  absent_or is_str "description" items ->
  apply_update r t (JObj items) now s
    = (Return (BTaskMsg (merge_fields items now t) "Task updated", 200),
       alter (fun _ => merge_fields items now t) r s).
Proof.
  intros Hn Ht Hd. rewrite apply_update_run. unfold bind.
  unfold merge_fields, absent_or in *.
  rewrite put_title_obj.
  destruct (assoc "title" items) as [ tv | ];
    [ destruct Ht as (x & ->); destruct (Str.nonempty (Str.strip x)) | ];
    cbv beta iota; rewrite put_description_obj;
    (destruct (assoc "description" items) as [ dv | ];
       [ destruct Hd as (d & ->) | ]);
    cbv beta iota; rewrite put_status_obj;
    destruct (assoc "status" items) as [ sv | ];
    rewrite ?alter_alter; rewrite (nth_alter _ _ _ _ t Hn);
    f_equal; try reflexivity;
    (apply alter_ext with (t := t); [ exact Hn | reflexivity ]).
Qed.

Lemma modify_task_typed (tid : string) (r : ref) (t : task)
    (items : list (string * json)) (now : string) (store : list task) :
  get_task tid store = Some (r, t) ->
  items <> [] ->
  absent_or is_str "title" items ->
  absent_or is_str "description" items ->
  absent_or valid_status "status" items ->
  modify_task allowed_status tid (JObj items) now store
    = (Return (BTaskMsg (merge_fields items now t) "Task updated", 200),
       alter (fun _ => merge_fields items now t) r store).
Proof.
  intros G Hne Ht Hd Hs. rewrite (modify_task_found _ _ _ _ _ _ G).
  destruct items as [ | kv items' ] eqn:Ei; [ contradiction | ].
  cbn [Py.truthy negb]. rewrite <- Ei in *. clear Ei.
  rewrite check_update_obj.
  destruct (get_task_found _ _ _ _ G) as (Hn & _).
  unfold absent_or in Hs.
  destruct (assoc "status" items) as [ sv | ] eqn:Es.
  - rewrite (in_set_valid sv Hs). cbn [rbind].
    now apply apply_update_typed.
  - now apply apply_update_typed.
Qed.

(** C6, as the code has it: for an existing id and an input that is a
    non-empty object, a supplied string title that is blank after trimming
    never changes the stored title and is not itself an error: when the
    other supplied fields are acceptable (description a string, status one
    of the enum values) the update goes through with the title as it was;
    a supplied status that is a string, number, boolean or null outside the
    enum makes [modify_task] answer with a Validation Error and apply
    nothing. *)
Theorem modify_task_blank_title_bad_status (tid : string) (r : ref) (t : task)
    (items : list (string * json)) (now : string) (store : list task) :
  get_task tid store = Some (r, t) ->
  items <> [] ->
  (forall x, assoc "title" items = Some (JStr x) -> Str.strip x = "" ->
     (forall t',
        nth_error
          (snd (modify_task allowed_status tid (JObj items) now store)) r
          = Some t' ->
        title t' = title t) /\
     (absent_or is_str "description" items ->
      absent_or valid_status "status" items ->
      modify_task allowed_status tid (JObj items) now store
        = (Return (BTaskMsg (merge_fields items now t) "Task updated", 200),
           alter (fun _ => merge_fields items now t) r store) /\
      title (merge_fields items now t) = title t)) /\
  (forall v, assoc "status" items = Some v -> hashable v -> ~ valid_status v ->
     modify_task allowed_status tid (JObj items) now store
       = (Return (validation_error (status_message allowed_status)), store)).
Proof.
  intros G Hne.
  destruct (get_task_found _ _ _ _ G) as (Hn & _).
  assert (Htr : Py.truthy (JObj items) = true).
  { destruct items; [ contradiction | reflexivity ]. }
  split.
  - intros x Ht Hx. split.
    + intros t'. rewrite (modify_task_found _ _ _ _ _ _ G), Htr. cbn [negb].
      destruct (check_task_input allowed_status (JObj items) (Some []))
        as [ [ [ | ] msg ] | e ]; cbn [snd];
        try (rewrite Hn; now intros [= <-]).
      destruct (apply_update_effect (fun f => forall y, title (f y) = title y)
                  r t (JObj items) now store) as (g & Qg & [ E | (e & E) ]).
      * split; [ reflexivity | intros f g Hf Hg y; now rewrite Hg, Hf ].
      * intros raw Hraw Hs. unfold Py.getitem in Hraw. rewrite Ht in Hraw.
        injection Hraw as <-. contradiction.
      * reflexivity.
      * reflexivity.
      * exact Hn.
      * rewrite E. cbn [snd]. rewrite (alter_same _ _ _ _ Hn).
        intros [= <-]. apply Qg.
      * rewrite E. cbn [snd]. rewrite (alter_same _ _ _ _ Hn).
        intros [= <-]. apply Qg.
    + intros Hd Hs. split.
      * apply modify_task_typed; auto.
        unfold absent_or. rewrite Ht. now exists x.
      * unfold merge_fields. cbn [title]. rewrite Ht, Hx. reflexivity.
  - intros v Hv Hh Hbad.
    rewrite (modify_task_found _ _ _ _ _ _ G), Htr. cbn [negb].
    rewrite check_update_obj, Hv. now rewrite (in_set_invalid v Hh Hbad).
Qed.

(** C7, as the code has it: for an existing id, whenever [modify_task]
    answers 200 the answer carries the task as now stored; its id and
    [created] are those it had, every one of title, description and status
    that the payload does not supply is as it was, every other task of the
    store is untouched, and [updated] is the current reading of the clock,
    whatever the previous [updated] was. *)
Theorem modify_task_frame (tid : string) (r : ref) (t : task) (data : json)
    (now : string) (store store' : list task) (b : body) :
  get_task tid store = Some (r, t) ->
  modify_task allowed_status tid data now store = (Return (b, 200), store') ->
  exists t',
    b = BTaskMsg t' "Task updated" /\
    nth_error store' r = Some t' /\
    length store' = length store /\
    (forall j, j <> r -> nth_error store' j = nth_error store j) /\
    id t' = id t /\ created t' = created t /\
    (Py.contains "title" data <> Return true -> title t' = title t) /\
    (Py.contains "description" data <> Return true ->
     description t' = description t) /\
    (Py.contains "status" data <> Return true -> status t' = status t) /\
    updated t' = now.
Proof.
  intros G. rewrite (modify_task_found _ _ _ _ _ _ G).
  destruct (get_task_found _ _ _ _ G) as (Hn & _).
  destruct (negb (Py.truthy data)); [ discriminate | ].
  destruct (check_task_input allowed_status data (Some []))
    as [ [ [ | ] msg ] | e ]; try discriminate.
  set (Q := fun f : task -> task =>
              forall y,
                id (f y) = id y /\ created (f y) = created y /\
                (Py.contains "title" data <> Return true ->
                 title (f y) = title y) /\
                (Py.contains "description" data <> Return true ->
                 description (f y) = description y) /\
                (Py.contains "status" data <> Return true ->
                 status (f y) = status y)).
  destruct (apply_update_effect Q r t data now store)
    as (g & Qg & [ E | (e & E) ]).
  - split; [ now intros y | ].
    intros f h Hf Hh y.
    destruct (Hf y) as (F1 & F2 & F3 & F4 & F5).
    destruct (Hh (f y)) as (H1 & H2 & H3 & H4 & H5).
    repeat split; intros; try rewrite H1; try rewrite H2; try rewrite H3;
      try rewrite H4; try rewrite H5; auto.
  - intros raw Hraw _ y. apply getitem_contains in Hraw.
    repeat split; auto. intros C. contradiction.
  - intros raw Hraw y. apply getitem_contains in Hraw.
    repeat split; auto. intros C. contradiction.
  - intros v Hv y. apply getitem_contains in Hv.
    repeat split; auto. intros C. contradiction.
  - exact Hn.
  - rewrite E. intros [= <- <-].
    destruct (Qg t) as (H1 & H2 & H3 & H4 & H5).
    exists (set_updated now (g t)).
    split; [ reflexivity | ].
    split; [ now apply (alter_same (fun x => set_updated now (g x))) | ].
    split; [ apply alter_length | ].
    split; [ intros j Hj; now apply alter_other | ].
    repeat split; auto.
  - rewrite E. discriminate.
Qed.

(** ** The status invariant *)

(** What a creation leaves behind: the store as it was, or the store with
    one task more, under the generated id and with an enum status. *)
Lemma add_task_store (data : json) (rnd : N) (now : string) (s : list task) :
  snd (add_task allowed_status data rnd now s) = s \/
  exists t, snd (add_task allowed_status data rnd now s) = (s ++ [t])%list /\
            id t = Uuid.fresh rnd /\ status_ok t.
Proof.
  unfold add_task.
  destruct (negb (Py.truthy data)); [ now left | ].
  unfold bind, lift, read, write, ret.
  destruct (check_task_input allowed_status data (Some ["title"]))
    as [ [ [ | ] msg ] | e ] eqn:C; cbn [fst snd negb]; try now left.
  destruct (check_passed_title _ _ C) as (items & tv & -> & Ht).
  unfold Py.getitem, Py.get. rewrite Ht.
  destruct (Py.strip tv) as [ x | e ]; [ | now left ].
  destruct (assoc "description" items) as [ dv | ];
    [ destruct (Py.strip dv) as [ d | e ]; [ | now left ] | cbn [Py.strip] ];
    (destruct (assoc "status" items) as [ sv | ] eqn:Es; cbn [snd];
     right; eexists; (split; [ reflexivity | ]); (split; [ reflexivity | ]);
     unfold status_ok; cbn [status];
     first [ apply (check_passed_status _ _ _ _ C); unfold Py.getitem;
             now rewrite Es
           | unfold valid_status; now left ]).
Qed.

(** What an update leaves behind: one dict of the store changed, its id
    kept and its status still in the enum if it was. *)
Lemma modify_task_store (tid : string) (data : json) (now : string)
    (s : list task) :
  exists r h,
    snd (modify_task allowed_status tid data now s) = alter h r s /\
    forall y, id (h y) = id y /\ (status_ok y -> status_ok (h y)).
Proof.
  assert (Hsame : forall s' : list task, s' = s ->
            exists r h, s' = alter h r s /\
              forall y, id (h y) = id y /\ (status_ok y -> status_ok (h y))).
  { intros s' ->. exists 0, (fun y => y). now rewrite alter_id. }
  destruct (get_task tid s) as [ [r t] | ] eqn:G.
  - rewrite (modify_task_found _ _ _ _ _ _ G).
    destruct (get_task_found _ _ _ _ G) as (Hn & _).
    destruct (negb (Py.truthy data)); [ now apply Hsame | ].
    destruct (check_task_input allowed_status data (Some []))
      as [ [ [ | ] msg ] | e ] eqn:C; try now apply Hsame.
    destruct (apply_update_effect
                (fun f => forall y,
                   id (f y) = id y /\ (status_ok y -> status_ok (f y)))
                r t data now s) as (g & Qg & [ E | (e & E) ]).
    + split; [ now intros y | ].
      intros f h Hf Hh y. destruct (Hf y) as (F1 & F2).
      destruct (Hh (f y)) as (H1 & H2). split; [ congruence | auto ].
    + now intros raw _ _ y.
    + now intros raw _ y.
    + intros v Hv y. split; [ reflexivity | intros _ ].
      apply (check_passed_status _ _ _ _ C Hv).
    + exact Hn.
    + exists r, (fun x => set_updated now (g x)). rewrite E.
      split; [ reflexivity | ]. intros y. destruct (Qg y) as (H1 & H2).
      now split.
    + exists r, g. rewrite E. now split.
  - apply Hsame. unfold modify_task, bind, read, ret. now rewrite G.
Qed.

(** What a deletion leaves behind: the store as it was, or the store
    without one of its items. *)
Lemma remove_task_store (tid : string) (s : list task) :
  snd (remove_task tid s) = s \/
  exists before t after,
    s = (before ++ t :: after)%list /\
    snd (remove_task tid s) = (before ++ after)%list.
Proof.
  unfold remove_task, bind, read, lift, write, ret.
  destruct (get_task tid s) as [ [r t] | ] eqn:G; [ | now left ].
  rewrite (list_remove_found _ _ _ _ G). cbn [snd].
  destruct (get_task_found _ _ _ _ G) as (Hn & _).
  right. exists (firstn r s), t, (skipn (S r) s).
  split; [ now apply firstn_skipn_middle | reflexivity ].
Qed.

Lemma NoDup_snoc (l : list string) (x : string) :
  NoDup l -> ~ In x l -> NoDup (l ++ [x]).
Proof.
  induction l as [ | a l IH ]; simpl; intros Hl Hx.
  - constructor; [ easy | constructor ].
  - inversion Hl; subst. constructor.
    + rewrite in_app_iff. simpl. intuition congruence.
    + apply IH; tauto.
Qed.

Lemma alter_ids (h : task -> task) (r : ref) (s : list task) :
  (forall y, id (h y) = id y) -> map id (alter h r s) = map id s.
Proof.
  intros H. revert r. induction s as [ | a s IH ]; intros [ | r ]; simpl; auto.
  - now rewrite H.
  - now rewrite IH.
Qed.

(** The ids of the store stay pairwise distinct under every request, as
    long as a creation is never handed an id the store already has. *)
Lemma handle_keeps_ids_distinct (q : request) (s : list task) :
  NoDup (map id s) ->
  (forall data rnd now,
     q = PostTask data rnd now -> ~ In (Uuid.fresh rnd) (map id s)) ->
  NoDup (map id (snd (handle allowed_status q s))).
Proof.
  intros H Hfresh. destruct q; cbn [handle].
  - destruct status_arg as [ [ | c st ] | ]; exact H.
  - unfold fetch_task, bind, read, ret.
    destruct (get_task tid s) as [ [r t] | ]; exact H.
  - destruct (add_task_store data rnd now s) as [ -> | (t & -> & Hi & _) ];
      [ exact H | ].
    rewrite map_app. cbn [map]. apply NoDup_snoc; [ exact H | ].
    rewrite Hi. now apply (Hfresh data rnd now).
  - destruct (modify_task_store tid data now s) as (r & h & -> & Hh).
    rewrite alter_ids; [ exact H | intros y; apply Hh ].
  - destruct (remove_task_store tid s)
      as [ -> | (before & t & after & Hs & ->) ]; [ exact H | ].
    rewrite Hs, map_app in H. cbn [map] in H.
    rewrite map_app. now apply NoDup_remove_1 in H.
  - constructor.
  - exact H.
Qed.

(** C5: in every store the service can reach from the preloaded one by any
    sequence of requests, creations, updates, deletions and clearing among
    them, with any payloads, and whether a handler returned or raised, the
    status of every stored task is one of ["pending"], ["in_progress"],
    ["completed"]. *)
Theorem reachable_status_in_enum (s : list task) :
  reachable allowed_status s -> Forall status_ok s.
Proof.
  induction 1 as [ rnd1 rnd2 | q s Hs IH ].
  - unfold initial_store.
    apply Forall_cons; [ | apply Forall_cons; [ | apply Forall_nil ] ];
      unfold status_ok, valid_status; cbn [status]; auto.
  - destruct q; cbn [handle].
    + destruct status_arg as [ [ | c st ] | ]; exact IH.
    + unfold fetch_task, bind, read, ret.
      destruct (get_task tid s) as [ [r t] | ]; exact IH.
    + destruct (add_task_store data rnd now s) as [ -> | (t & -> & _ & Ht) ];
        [ exact IH | ].
      apply Forall_app. split; [ exact IH | ].
      apply Forall_cons; [ exact Ht | apply Forall_nil ].
    + destruct (modify_task_store tid data now s) as (r & h & -> & Hh).
      apply alter_Forall; [ intros y; apply Hh | exact IH ].
    + destruct (remove_task_store tid s)
        as [ -> | (before & t & after & Hs' & ->) ]; [ exact IH | ].
      rewrite Hs' in IH. apply Forall_app in IH. destruct IH as (H1 & H2).
      apply Forall_app. split; [ exact H1 | now inversion H2 ].
    + constructor.
    + exact IH.
Qed.

End Properties.

(** ** The statements on sample requests *)

Lemma enum_members : Permutation enum enum.
Proof. apply Permutation_refl. Defined.

Lemma demo_lookup : get_task demo_id demo_store = Some (0, demo_task).
Proof. reflexivity. Defined.

Lemma add_task_success_witness :
  exists t,
    add_task enum (JObj [("title", JStr "Buy milk")]) 7 demo_now demo_store
      = (Return (BTaskMsg t "Task successfully created", 201),
         (demo_store ++ [t])%list) /\
    id t <> "" /\ title t = "Buy milk" /\ description t = "" /\
    status t = JStr "pending" /\ created t = updated t.
Proof.
  destruct (add_task_success enum enum_members
              [("title", JStr "Buy milk")] "Buy milk" 7 demo_now demo_store)
    as (t & H & _ & Hid & Ht & Hd & Hs & Hc & _).
  - reflexivity.
  - vm_compute. discriminate.
  - exact I.
  - exact I.
  - exists t. repeat split; assumption.
Defined.

(** C1 as stated fails in two ways.  The id is not checked against the
    store: when the generator yields the bits behind an id that is already
    stored, the creation goes through and the new task carries that same id.
    And when the description is not a string, a payload with a non-blank
    string title and no status makes [add_task] raise instead of creating
    the task. *)
Lemma add_task_repeated_id_and_numeric_description :
  (In (Uuid.fresh 1) (map id demo_store) /\
   exists t,
     add_task enum (JObj [("title", JStr "Buy milk")]) 1 demo_now demo_store
       = (Return (BTaskMsg t "Task successfully created", 201),
          (demo_store ++ [t])%list) /\
     In (id t) (map id demo_store)) /\
  (let items := [("title", JStr "Buy milk"); ("description", JInt 5)] in
   assoc "title" items = Some (JStr "Buy milk") /\
   Str.strip "Buy milk" <> "" /\
   absent_or valid_status "status" items /\
   add_task enum (JObj items) 7 demo_now demo_store
     = (Raise AttributeError, demo_store)).
Proof.
  split.
  - split; [ left; reflexivity | ].
    exists (created_task [("title", JStr "Buy milk")] "Buy milk" 1 demo_now).
    split; [ reflexivity | left; reflexivity ].
  - repeat split. vm_compute. discriminate.
Qed.

Lemma modify_task_no_fields_witness :
  modify_task enum demo_id (JObj []) demo_now demo_store
    = (Return bad_request, demo_store) /\
  modify_task enum demo_id (JObj [("note", JStr "x")]) demo_now demo_store
    = (Return (BTaskMsg (set_updated demo_now demo_task) "Task updated", 200),
       alter (fun _ => set_updated demo_now demo_task) 0 demo_store).
Proof.
  destruct (modify_task_no_fields enum demo_id 0 demo_task demo_now demo_store
              demo_lookup) as (H1 & H2).
  split; [ exact H1 | ].
  destruct (H2 [("note", JStr "x")]) as (H & _);
    [ discriminate | reflexivity | reflexivity | reflexivity | exact H ].
Defined.

(** C2 as stated fails: the id exists and the input supplies no field at
    all, and the answer is the Bad Request error. *)
Lemma modify_task_empty_object_refused :
  In demo_id (map id demo_store) /\
  modify_task enum demo_id (JObj []) demo_now demo_store
    = (Return (BError "Bad Request" "JSON body required", 400), demo_store).
Proof.
  split; [ left | ]; reflexivity.
Qed.

Lemma reachable_status_in_enum_witness :
  Forall status_ok
    (snd (handle enum (PutTask demo_id (JObj [("status", JStr "completed")])
                         demo_now)
            (snd (handle enum (PostTask (JObj [("title", JStr "Buy milk")])
                                 7 demo_now)
                    demo_store)))).
Proof.
  apply (reachable_status_in_enum enum enum_members).
  apply reach_step. apply reach_step. exact (reach_init enum 1 2).
Defined.

Lemma modify_task_blank_title_bad_status_witness :
  (modify_task enum demo_id (JObj [("title", JStr "   ")]) demo_now demo_store
     = (Return (BTaskMsg (set_updated demo_now demo_task) "Task updated", 200),
        alter (fun _ => set_updated demo_now demo_task) 0 demo_store)) /\
  (modify_task enum demo_id (JObj [("status", JStr "bogus")]) demo_now
     demo_store
     = (Return (validation_error
                  "Status must be one of: pending, in_progress, completed"),
        demo_store)).
Proof.
  split.
  - destruct (modify_task_blank_title_bad_status enum enum_members demo_id 0
                demo_task [("title", JStr "   ")] demo_now demo_store
                demo_lookup) as (HA & _); [ discriminate | ].
    destruct (HA "   " eq_refl eq_refl) as (_ & H).
    destruct H as (H & _); [ exact I | exact I | exact H ].
  - destruct (modify_task_blank_title_bad_status enum enum_members demo_id 0
                demo_task [("status", JStr "bogus")] demo_now demo_store
                demo_lookup) as (_ & HB); [ discriminate | ].
    apply (HB (JStr "bogus") eq_refl I).
    unfold valid_status. intros [ H | [ H | H ] ]; discriminate H.
Defined.

(** C6 as stated fails in both halves.  A status that is a list is outside
    the enum, yet [modify_task] raises [TypeError] instead of answering with a
    Validation Error; and an input with a blank title and the status
    ["bogus"] does get an error back. *)
Lemma modify_task_list_status_raises :
  In demo_id (map id demo_store) /\
  ~ valid_status (JArr []) /\
  modify_task enum demo_id (JObj [("status", JArr [])]) demo_now demo_store
    = (Raise TypeError, demo_store) /\
  Str.strip "   " = "" /\
  modify_task enum demo_id
    (JObj [("title", JStr "   "); ("status", JStr "bogus")]) demo_now demo_store
    = (Return (BError "Validation Error"
                 "Status must be one of: pending, in_progress, completed", 400),
       demo_store).
Proof.
  split; [ left; reflexivity | ].
  split; [ intros [ H | [ H | H ] ]; discriminate H | ].
  repeat split.
Qed.

Lemma modify_task_frame_witness :
  exists t',
    nth_error
      (snd (modify_task enum demo_id (JObj [("description", JStr " later ")])
              demo_now demo_store)) 0 = Some t' /\
    id t' = demo_id /\ created t' = "2025-09-30T10:00:00" /\
    title t' = "Finish REST API homework" /\ status t' = JStr "in_progress" /\
    description t' = "later" /\
    updated t' = demo_now.
Proof.
  destruct (modify_task_frame enum demo_id 0 demo_task
              (JObj [("description", JStr " later ")]) demo_now demo_store
              (alter (set_updated demo_now)
                 0 (alter (set_description "later") 0 demo_store))
              (BTaskMsg (set_updated demo_now (set_description "later" demo_task))
                 "Task updated")
              demo_lookup eq_refl)
    as (t' & Hb & Hn & _ & _ & Hi & Hc & Ht & _ & Hs & Hu).
  injection Hb as <-.
  eexists. split; [ reflexivity | ].
  repeat split.
Defined.

(** C7 as stated fails when the clock has gone back: the update is answered
    200, every field but [updated] is kept, and the new [updated] is the
    reading of the clock, here earlier than the previous one. *)
Lemma modify_task_clock_gone_back :
  let t' := set_updated "2024-01-01T00:00:00" demo_task in
  get_task demo_id demo_store = Some (0, demo_task) /\
  modify_task enum demo_id (JObj [("priority", JStr "high")])
    "2024-01-01T00:00:00" demo_store
    = (Return (BTaskMsg t' "Task updated", 200),
       alter (set_updated "2024-01-01T00:00:00") 0 demo_store) /\
  updated demo_task = "2025-09-30T10:00:00" /\
  updated t' = "2024-01-01T00:00:00" /\
  String.leb (updated demo_task) (updated t') = false.
Proof.
  repeat split.
Qed.



Lemma modify_task_unknown_id_witness :
  ~ In "no-such-id" (map id demo_store) /\
  modify_task enum "no-such-id" (JObj [("status", JStr "bogus")]) demo_now
    demo_store
    = (Return (not_found "Task id no-such-id not found"), demo_store).
Proof.
  assert (H : ~ In "no-such-id" (map id demo_store)).
  { vm_compute. intros [ E | [ E | [] ] ]; discriminate E. }
  split; [ exact H | ].
  exact (modify_task_unknown_id enum "no-such-id"
           (JObj [("status", JStr "bogus")]) demo_now demo_store H).
Defined.

(** * Further properties of the handlers *)

(** ** Trimming *)

Lemma rstrip_cons (c : ascii) (r : string) :
  Str.rstrip (String c r) =
  match Str.rstrip r with
  | EmptyString => if Str.is_space c then EmptyString else String c EmptyString
  | r' => String c r'
  end.
Proof. reflexivity. Qed.

Lemma rstrip_idem (s : string) : Str.rstrip (Str.rstrip s) = Str.rstrip s.
Proof.
  induction s as [ | c r IH ]; [ reflexivity | ].
  rewrite rstrip_cons. destruct (Str.rstrip r) as [ | d u ] eqn:E.
  - destruct (Str.is_space c) eqn:S; [ reflexivity | ].
    rewrite rstrip_cons. cbn [Str.rstrip]. now rewrite S.
  - rewrite rstrip_cons, IH. reflexivity.
Qed.

Lemma lstrip_head (s : string) :
  Str.lstrip s = "" \/
  exists c r, Str.lstrip s = String c r /\ Str.is_space c = false.
Proof.
  induction s as [ | c r IH ]; [ now left | ].
  cbn [Str.lstrip]. destruct (Str.is_space c) eqn:S; [ exact IH | ].
  right. now exists c, r.
Qed.

Lemma rstrip_head (c : ascii) (r : string) :
  Str.is_space c = false -> exists r', Str.rstrip (String c r) = String c r'.
Proof.
  intros S. cbn [Str.rstrip]. destruct (Str.rstrip r) as [ | d u ].
  - rewrite S. now exists "".
  - now exists (String d u).
Qed.

(** [s.strip().strip() == s.strip()] *)
Lemma strip_idem (s : string) : Str.strip (Str.strip s) = Str.strip s.
Proof.
  unfold Str.strip.
  destruct (lstrip_head s) as [ E | (c & r & E & S) ]; rewrite E.
  - reflexivity.
  - destruct (rstrip_head c r S) as (r' & E').
    assert (L : Str.lstrip (Str.rstrip (String c r)) = Str.rstrip (String c r)).
    { rewrite E'. cbn [Str.lstrip]. now rewrite S. }
    rewrite L. apply rstrip_idem.
Qed.

Section More.

Variable allowed_status : list string.
Hypothesis allowed_status_members : Permutation allowed_status enum.

(** ** Creation, case by case *)

(** The store is as it was and the answer, if any, is a 400. *)
Ltac refused :=
  right; split; [ reflexivity | intros ? ? E; cbn in E; congruence ].

(** Every run of [add_task] is of one of two kinds: the payload is
    creatable and the answer is 201 with the new dict appended, or the
    store is as it was and whatever is answered has code 400. *)
Lemma add_task_cases (data : json) (rnd : N) (now : string) (s : list task) :
  (exists items x,
     creatable data items x /\
     add_task allowed_status data rnd now s
       = (Return (BTaskMsg (created_task items x rnd now)
                    "Task successfully created", 201),
          (s ++ [created_task items x rnd now])%list)) \/
  (snd (add_task allowed_status data rnd now s) = s /\
   forall b code,
     fst (add_task allowed_status data rnd now s) = Return (b, code) ->
     code = 400).
Proof.
  unfold add_task.
  destruct (negb (Py.truthy data));
    [ refused | ].
  unfold bind, lift, read, write, ret.
  destruct (check_task_input allowed_status data (Some ["title"]))
    as [ [ [ | ] msg ] | e ] eqn:C; cbn [fst snd negb];
    try refused.
  destruct (check_passed_title _ _ _ C) as (items & tv & -> & Ht).
  pose proof C as C'. rewrite check_create_obj, Ht in C'.
  destruct (Py.str_blank tv) eqn:B; [ discriminate C' | ].
  rewrite check_update_obj in C'.
  assert (Hs : absent_or valid_status "status" items).
  { unfold absent_or. destruct (assoc "status" items) as [ sv | ]; [ | exact I ].
    apply (in_set_true allowed_status allowed_status_members).
    destruct (Py.in_set sv allowed_status) as [ [ | ] | e ];
      [ reflexivity | discriminate C' | discriminate C' ]. }
  unfold Py.getitem, Py.get. rewrite Ht.
  destruct tv as [ | tb | tn | tf | x | tl | to ]; cbn [Py.strip];
    try refused.
  assert (Hx : Str.strip x <> "").
  { apply nonempty_true. cbn [Py.str_blank] in B.
    now destruct (Str.nonempty (Str.strip x)). }
  destruct (assoc "description" items) as [ dv | ] eqn:Ed.
  - destruct dv as [ | db | dn | df | d | dl | do ]; cbn [Py.strip];
      try refused.
    left. exists items, x. split.
    + repeat split; auto. unfold absent_or. rewrite Ed. now exists d.
    + unfold created_task. rewrite Ed.
      now destruct (assoc "status" items).
  - cbn [Py.strip]. left. exists items, x. split.
    + repeat split; auto. unfold absent_or. now rewrite Ed.
    + unfold created_task. rewrite Ed.
      now destruct (assoc "status" items).
Qed.

Lemma get_task_app_fresh (s : list task) (t : task) :
  ~ In (id t) (map id s) -> get_task (id t) (s ++ [t]) = Some (length s, t).
Proof.
  induction s as [ | a s IH ]; simpl; intros H.
  - now rewrite String.eqb_refl.
  - destruct (String.eqb (id a) (id t)) eqn:E.
    + apply String.eqb_eq in E. tauto.
    + rewrite IH; [ reflexivity | tauto ].
Qed.

Lemma list_remove_app_fresh (s : list task) (t : task) :
  ~ In (id t) (map id s) -> list_remove t (s ++ [t]) = Return s.
Proof.
  induction s as [ | a s IH ]; simpl; intros H.
  - now rewrite task_eqb_refl.
  - destruct (task_eqb a t) eqn:E.
    + apply task_eqb_id in E. tauto.
    + rewrite IH; [ reflexivity | tauto ].
Qed.

(** X1.  [add_task] is all or nothing.  A 201 is answered only for a
    payload that is an object with a string title left non-blank by
    trimming, a string description or none, and an enum status or none; the
    answer then carries the dict built from it, and the store is the old
    one with that dict at the end.  In every other run, whether a 400 is
    answered or an exception escapes, the store is as it was. *)
Theorem add_task_all_or_nothing (data : json) (rnd : N) (now : string)
    (s s' : list task) (res : result response) :
  add_task allowed_status data rnd now s = (res, s') ->
  (forall b, res = Return (b, 201) ->
     exists items x,
       creatable data items x /\
       b = BTaskMsg (created_task items x rnd now) "Task successfully created" /\
       s' = (s ++ [created_task items x rnd now])%list) /\
  ((forall b, res <> Return (b, 201)) -> s' = s).
Proof.
  intros E.
  destruct (add_task_cases data rnd now s)
    as [ (items & x & Hc & H) | (Hs & Hcode) ]; rewrite E in *.
  - injection H as -> ->. split.
    + intros b [= <-]. now exists items, x.
    + intros Hno. now destruct (Hno _ eq_refl).
  - cbn [fst snd] in *. split.
    + intros b ->. specialize (Hcode _ _ eq_refl). discriminate Hcode.
    + intros _. exact Hs.
Qed.

(** X2.  Create, then get: when [add_task] answers 201 and the generated id
    was not yet in the store, [fetch_task] on the id of the returned task
    answers 200 with that very task, and leaves the store alone. *)
Theorem add_then_fetch (data : json) (rnd : N) (now : string)
    (s s' : list task) (b : body) :
  ~ In (Uuid.fresh rnd) (map id s) ->
  add_task allowed_status data rnd now s = (Return (b, 201), s') ->
  exists t,
    b = BTaskMsg t "Task successfully created" /\
    id t = Uuid.fresh rnd /\
    fetch_task (id t) s' = (Return (BTask t, 200), s').
Proof.
  intros Hf E.
  destruct (add_task_cases data rnd now s)
    as [ (items & x & Hc & H) | (Hs & Hcode) ]; rewrite E in *.
  - injection H as -> ->.
    exists (created_task items x rnd now).
    split; [ reflexivity | split; [ reflexivity | ] ].
    unfold fetch_task, bind, read, ret.
    now rewrite get_task_app_fresh.
  - specialize (Hcode _ _ eq_refl). discriminate Hcode.
Qed.

(** X3.  Create, then delete: when [add_task] answers 201 and the
    generated id was not yet in the store, [remove_task] on the id of the
    created task answers 200 naming that id and gives back the store as it
    was before the creation. *)
Theorem add_then_remove (data : json) (rnd : N) (now : string)
    (s s' : list task) (b : body) :
  ~ In (Uuid.fresh rnd) (map id s) ->
  add_task allowed_status data rnd now s = (Return (b, 201), s') ->
  remove_task (Uuid.fresh rnd) s'
    = (Return (BDeleted "Task removed" (Uuid.fresh rnd), 200), s).
Proof.
  intros Hf E.
  destruct (add_task_cases data rnd now s)
    as [ (items & x & Hc & H) | (Hs & Hcode) ]; rewrite E in *.
  - injection H as _ ->.
    set (t := created_task items x rnd now).
    change (Uuid.fresh rnd) with (id t) in *.
    unfold remove_task, bind, read, lift, write, ret.
    rewrite get_task_app_fresh by exact Hf.
    now rewrite list_remove_app_fresh.
  - specialize (Hcode _ _ eq_refl). discriminate Hcode.
Qed.

(** ** Updates, for any class of changes *)

(** Whatever [modify_task] does to the store, it does to one dict, by a
    change composed of the assignments it can make: a trimmed title with
    something in it, a trimmed description, a validated status, the new
    [updated]. *)
Lemma modify_task_touches (Q : (task -> task) -> Prop) (tid : string)
    (data : json) (now : string) (s : list task) :
  change_class Q ->
  (forall raw, Str.strip raw <> "" -> Q (set_title (Str.strip raw))) ->
  (forall raw, Q (set_description (Str.strip raw))) ->
  (forall v, valid_status v -> Q (set_status v)) ->
  Q (set_updated now) ->
  exists r h,
    snd (modify_task allowed_status tid data now s) = alter h r s /\ Q h.
Proof.
  intros HQ Ht Hd Hs Hu.
  assert (Hsame : forall s' : list task, s' = s ->
            exists r h, s' = alter h r s /\ Q h).
  { intros s' ->. exists 0, (fun y => y). rewrite alter_id.
    split; [ reflexivity | apply HQ ]. }
  destruct (get_task tid s) as [ [r t] | ] eqn:G.
  - rewrite (modify_task_found _ _ _ _ _ _ _ G).
    destruct (get_task_found _ _ _ _ G) as (Hn & _).
    destruct (negb (Py.truthy data)); [ now apply Hsame | ].
    destruct (check_task_input allowed_status data (Some []))
      as [ [ [ | ] msg ] | e ] eqn:C; try now apply Hsame.
    destruct (apply_update_effect Q r t data now s HQ)
      as (g & Qg & [ E | (e & E) ]); auto.
    + intros v Hv. apply Hs.
      apply (check_passed_status _ allowed_status_members _ _ _ _ C Hv).
    + exists r, (fun x => set_updated now (g x)). rewrite E.
      split; [ reflexivity | ]. now apply HQ.
    + exists r, g. rewrite E. now split.
  - apply Hsame. unfold modify_task, bind, read, ret. now rewrite G.
Qed.

Lemma In_alter (h : task -> task) (r : ref) (s : list task) (t' : task) :
  In t' (alter h r s) -> exists t, In t s /\ (t' = t \/ t' = h t).
Proof.
  revert r. induction s as [ | a s IH ]; intros [ | r ]; simpl; try tauto.
  - intros [ <- | H ]; eauto.
  - intros [ <- | H ]; eauto.
    destruct (IH r H) as (t & Hi & Ht). eauto.
Qed.

(** ** What every request keeps *)

(** X4.  Stored text stays clean.  In every store the service can reach
    from the preloaded one, by any requests with any payloads, every title
    is non-empty, and every title and description is already trimmed:
    stripping it again changes nothing. *)
Theorem reachable_text_trimmed (s : list task) :
  reachable allowed_status s -> Forall text_ok s.
Proof.
  induction 1 as [ rnd1 rnd2 | q s Hs IH ].
  - unfold initial_store.
    apply Forall_cons; [ | apply Forall_cons; [ | apply Forall_nil ] ];
      unfold text_ok; cbn [title description];
      (split; [ discriminate | split; reflexivity ]).
  - destruct q; cbn [handle].
    + destruct status_arg as [ [ | c st ] | ]; exact IH.
    + unfold fetch_task, bind, read, ret.
      destruct (get_task tid s) as [ [r t] | ]; exact IH.
    + destruct (add_task_cases data rnd now s)
        as [ (items & x & Hc & H) | (H & _) ]; rewrite H; [ | exact IH ].
      cbn [snd]. apply Forall_app. split; [ exact IH | ].
      apply Forall_cons; [ | apply Forall_nil ].
      destruct Hc as (_ & _ & Hx & _ & _).
      unfold text_ok, created_task. cbn [title description].
      split; [ exact Hx | split; [ apply strip_idem | ] ].
      destruct (assoc "description" items) as [ [ | | | | d | | ] | ];
        try reflexivity. apply strip_idem.
    + destruct (modify_task_touches
                  (fun f => forall y, text_ok y -> text_ok (f y))
                  tid data now s) as (r & h & -> & Hh).
      * split; [ auto | intros f g Hf Hg y Hy; apply Hg, Hf, Hy ].
      * intros raw Hraw y (_ & _ & Hd). unfold text_ok. cbn [title description].
        split; [ exact Hraw | split; [ apply strip_idem | exact Hd ] ].
      * intros raw y (Ht1 & Ht2 & _). unfold text_ok. cbn [title description].
        split; [ exact Ht1 | split; [ exact Ht2 | apply strip_idem ] ].
      * intros v _ y Hy. exact Hy.
      * intros y Hy. exact Hy.
      * apply alter_Forall; assumption.
    + destruct (remove_task_store tid s)
        as [ -> | (before & t & after & Hs' & ->) ]; [ exact IH | ].
      rewrite Hs' in IH. apply Forall_app in IH. destruct IH as (H1 & H2).
      apply Forall_app. split; [ exact H1 | now inversion H2 ].
    + constructor.
    + exact IH.
Qed.

(** X5.  Ids stay unique.  In every store reached from a preloaded store
    with two different ids, by requests in which no creation is handed an
    id that the store already holds, the ids are pairwise distinct. *)
Theorem reachable_fresh_ids_distinct (s : list task) :
  reachable_fresh allowed_status s -> NoDup (map id s).
Proof.
  induction 1 as [ rnd1 rnd2 Hne | q s Hs IH Hq ].
  - cbn [initial_store map id].
    apply NoDup_cons; [ | apply NoDup_cons; [ easy | apply NoDup_nil ] ].
    intros [ E | [] ]. now apply Hne.
  - now apply handle_keeps_ids_distinct.
Qed.

(** X6.  No request rewrites who a task is.  Every task in the store
    after a request, whatever the request and whether its handler returned
    or raised, either has the id and the [created] of a task that was there
    before, or is the one task a creation just built, under the generated
    id and with [created] and [updated] both the current timestamp. *)
Theorem handle_keeps_identity (q : request) (s : list task) (t' : task) :
  In t' (snd (handle allowed_status q s)) ->
  (exists t, In t s /\ id t = id t' /\ created t = created t') \/
  (exists data rnd now,
     q = PostTask data rnd now /\ id t' = Uuid.fresh rnd /\
     created t' = now /\ updated t' = now).
Proof.
  destruct q; cbn [handle].
  - destruct status_arg as [ [ | c st ] | ]; intros H; left; now exists t'.
  - unfold fetch_task, bind, read, ret.
    destruct (get_task tid s) as [ [r t] | ]; intros H; left; now exists t'.
  - destruct (add_task_cases data rnd now s)
      as [ (items & x & Hc & H) | (H & _) ]; rewrite H; cbn [snd].
    + rewrite in_app_iff. intros [ Hi | [ <- | [] ] ].
      * left. now exists t'.
      * right. now exists data, rnd, now.
    + intros Hi. left. now exists t'.
  - destruct (modify_task_touches
                (fun f => forall y, id (f y) = id y /\ created (f y) = created y)
                tid data now s) as (r & h & -> & Hh); try now intros.
    + split; [ now intros y | ].
      intros f g Hf Hg y. destruct (Hf y), (Hg (f y)). split; congruence.
    + intros Hi. destruct (In_alter _ _ _ _ Hi) as (t & Ht & [ -> | -> ]);
        left; exists t; [ now split | ].
      destruct (Hh t). now split.
  - destruct (remove_task_store tid s)
      as [ -> | (before & t & after & Hs' & ->) ];
      intros Hi; left; exists t'; (split; [ | now split ]); [ exact Hi | ].
    rewrite Hs'. rewrite in_app_iff in *. simpl. tauto.
  - intros [].
  - intros H. left. now exists t'.
Qed.

Lemma modify_task_codes (tid : string) (data : json) (now : string)
    (s s' : list task) (b : body) (code : nat) :
  modify_task allowed_status tid data now s = (Return (b, code), s') ->
  code = 200 \/ ((code = 400 \/ code = 404) /\ s' = s).
Proof.
  destruct (get_task tid s) as [ [r t] | ] eqn:G.
  - rewrite (modify_task_found _ _ _ _ _ _ _ G).
    destruct (negb (Py.truthy data));
      [ intros [= <- <- <-]; right; auto | ].
    destruct (check_task_input allowed_status data (Some []))
      as [ [ [ | ] msg ] | e ]; try discriminate.
    + rewrite apply_update_run.
      destruct ((put_title r data ;;; put_description r data ;;;
                 put_status r data) s) as [ [ u | e ] s1 ];
        [ intros [= <- <- <-]; now left | discriminate ].
    + intros [= <- <- <-]. right. auto.
  - unfold modify_task, bind, read, ret. rewrite G.
    intros [= <- <- <-]. right. auto.
Qed.

(** X7.  Answers and effects go together.  Whatever the request, a response
    has code 200, 201, 400 or 404; a 400 or 404 leaves the store exactly as
    it was; and a 201 comes only from a creation, with the returned task put
    at the end of the store. *)
Theorem handle_codes (q : request) (s s' : list task) (b : body) (code : nat) :
  handle allowed_status q s = (Return (b, code), s') ->
  (code = 200 \/ code = 201 \/ code = 400 \/ code = 404) /\
  (code = 400 \/ code = 404 -> s' = s) /\
  (code = 201 ->
   exists data rnd now t,
     q = PostTask data rnd now /\
     b = BTaskMsg t "Task successfully created" /\ s' = (s ++ [t])%list).
Proof.
  destruct q; cbn [handle].
  - destruct status_arg as [ [ | c st ] | ]; intros [= <- <- <-];
      (split; [ auto | split; [ intros [ E | E ]; discriminate E
                              | intros E; discriminate E ] ]).
  - unfold fetch_task, bind, read, ret.
    destruct (get_task tid s) as [ [r t] | ]; intros [= <- <- <-];
      (split; [ auto | split; [ try reflexivity; intros [ E | E ]; discriminate E
                              | intros E; discriminate E ] ]).
  - intros E.
    destruct (add_task_cases data rnd now s)
      as [ (items & x & Hc & H) | (Hs & Hcode) ]; rewrite E in *.
    + injection H as -> -> ->.
      split; [ auto | split; [ intros [ F | F ]; discriminate F | intros _ ] ].
      now exists data, rnd, now, (created_task items x rnd now).
    + cbn [fst snd] in *. specialize (Hcode _ _ eq_refl). subst code.
      split; [ auto | split; [ now intros _ | intros F; discriminate F ] ].
  - intros E. destruct (modify_task_codes _ _ _ _ _ _ _ E)
      as [ -> | ([ -> | -> ] & ->) ];
      (split; [ auto | split; [ try reflexivity; intros [ F | F ]; discriminate F
                              | intros F; discriminate F ] ]).
  - unfold remove_task, bind, read, lift, write, ret.
    destruct (get_task tid s) as [ [r t] | ] eqn:G.
    + rewrite (list_remove_found _ _ _ _ G). intros [= <- <- <-].
      split; [ auto | split; [ intros [ F | F ]; discriminate F
                             | intros F; discriminate F ] ].
    + intros [= <- <- <-].
      split; [ auto | split; [ reflexivity | intros F; discriminate F ] ].
  - intros [= <- <- <-].
    split; [ auto | split; [ intros [ F | F ]; discriminate F
                           | intros F; discriminate F ] ].
  - intros [= <- <- <-].
    split; [ auto | split; [ intros [ F | F ]; discriminate F
                           | intros F; discriminate F ] ].
Qed.

(** ** Updates that stop half way, and updates made twice *)

(** X8.  An update is not atomic.  For an existing id and an object that
    passes validation, with a string title that trimming leaves non-blank
    and a description that is not a string, [modify_task] raises
    [AttributeError] after it has already stored the new title: the store
    that is left differs from the old one in that title only, and the task
    keeps its old [updated]. *)
Theorem modify_task_partial_write (tid : string) (r : ref) (t : task)
    (items : list (string * json)) (x : string) (dv : json) (now : string)
    (s : list task) :
  get_task tid s = Some (r, t) ->
  assoc "title" items = Some (JStr x) ->
  Str.strip x <> "" ->
  assoc "description" items = Some dv ->
  ~ is_str dv ->
  absent_or valid_status "status" items ->
  modify_task allowed_status tid (JObj items) now s
    = (Raise AttributeError, alter (set_title (Str.strip x)) r s) /\
  nth_error (alter (set_title (Str.strip x)) r s) r
    = Some (set_title (Str.strip x) t) /\
  updated (set_title (Str.strip x) t) = updated t.
Proof.
  intros G Ht Hx Hd Hns Hs.
  destruct (get_task_found _ _ _ _ G) as (Hn & _).
  split; [ | split; [ now apply alter_same | reflexivity ] ].
  rewrite (modify_task_found _ _ _ _ _ _ _ G).
  assert (Htr : Py.truthy (JObj items) = true).
  { destruct items; [ discriminate Ht | reflexivity ]. }
  rewrite Htr. cbn [negb]. rewrite check_update_obj.
  assert (Hchk : match assoc "status" items with
                 | Some v =>
                     let* ok := Py.in_set v allowed_status in
                     if ok then Return (true, "")
                     else Return (false, status_message allowed_status)
                 | None => Return (true, "")
                 end = Return (true, "")).
  { unfold absent_or in Hs. destruct (assoc "status" items) as [ v | ];
      [ | reflexivity ].
    now rewrite (in_set_valid _ allowed_status_members v Hs). }
  rewrite Hchk. rewrite apply_update_run. unfold bind.
  rewrite put_title_obj, Ht. apply nonempty_true in Hx. rewrite Hx.
  rewrite put_description_obj, Hd.
  destruct dv as [ | db | dn | df | d | dl | do ]; try reflexivity.
  exfalso. apply Hns. now exists d.
Qed.

Lemma get_task_alter (tid : string) (h : task -> task) (r : ref) (t : task)
    (s : list task) :
  get_task tid s = Some (r, t) -> id (h t) = tid ->
  get_task tid (alter h r s) = Some (r, h t).
Proof.
  revert r. induction s as [ | a s IH ]; intros r; simpl; [ discriminate | ].
  destruct (String.eqb (id a) tid) eqn:E.
  - intros [= <- <-] Hi. simpl. apply String.eqb_eq in Hi. now rewrite Hi.
  - destruct (get_task tid s) as [ [r' t'] | ] eqn:G; [ | discriminate ].
    intros [= <- <-] Hi. simpl. rewrite E. now rewrite (IH r' eq_refl Hi).
Qed.

Lemma merge_fields_again (items : list (string * json)) (now1 now2 : string)
    (t : task) :
  merge_fields items now2 (merge_fields items now1 t) = merge_fields items now2 t.
Proof.
  unfold merge_fields. cbn [id title description status created updated].
  f_equal.
  - destruct (assoc "title" items) as [ [ | | | | x | | ] | ]; try reflexivity.
    now destruct (Str.nonempty (Str.strip x)).
  - now destruct (assoc "description" items) as [ [ | | | | d | | ] | ].
  - now destruct (assoc "status" items).
Qed.

(** X9.  An update made twice is the update made once.  For an existing id
    and a non-empty object with a string title or none, a string
    description or none and an enum status or none, sending the same
    request again, at a later timestamp, answers and leaves the store
    exactly as sending it once at that later timestamp would have. *)
Theorem modify_task_idempotent (tid : string) (r : ref) (t : task)
    (items : list (string * json)) (now1 now2 : string) (s : list task) :
  get_task tid s = Some (r, t) ->
  items <> [] ->
  absent_or is_str "title" items ->
  absent_or is_str "description" items ->
  absent_or valid_status "status" items ->
  modify_task allowed_status tid (JObj items) now2
    (snd (modify_task allowed_status tid (JObj items) now1 s))
  = modify_task allowed_status tid (JObj items) now2 s.
Proof.
  intros G Hne Ht Hd Hs.
  rewrite (modify_task_typed _ allowed_status_members _ _ _ _ now1 _
             G Hne Ht Hd Hs).
  rewrite (modify_task_typed _ allowed_status_members _ _ _ _ now2 _
             G Hne Ht Hd Hs).
  cbn [snd].
  assert (G1 : get_task tid (alter (fun _ => merge_fields items now1 t) r s)
               = Some (r, merge_fields items now1 t)).
  { apply (get_task_alter tid (fun _ => merge_fields items now1 t) r t s G).
    destruct (get_task_found _ _ _ _ G) as (_ & Hi & _). exact Hi. }
  rewrite (modify_task_typed _ allowed_status_members _ _ _ _ now2 _
             G1 Hne Ht Hd Hs).
  now rewrite merge_fields_again, alter_alter.
Qed.

(** ** Clearing and counting *)

(** X10.  After [remove_all] nothing is left to find.  It reports the
    number of tasks it removed; on the store it leaves, listing under any
    filter gives no task and a total of 0, the health check counts 0,
    getting, updating or deleting any id answers Not Found whatever the
    payload, and clearing again reports 0. *)
Theorem remove_all_then (s : list task) (status_arg : option string)
    (tid : string) (data : json) (now : string) :
  remove_all s
    = (Return (BCount ("Removed " ++ Str.of_nat (length s) ++ " tasks")
                 (length s), 200), []) /\
  let s' := snd (remove_all s) in
  list_tasks status_arg s' = (Return (BTasks [] 0, 200), []) /\
  ping now s' = (Return (BHealth 0 now, 200), []) /\
  fetch_task tid s' = (Return (not_found ("No task with id " ++ tid)), []) /\
  modify_task allowed_status tid data now s'
    = (Return (not_found ("Task id " ++ tid ++ " not found")), []) /\
  remove_task tid s' = (Return (not_found ("No task with id " ++ tid)), []) /\
  remove_all s' = (Return (BCount "Removed 0 tasks" 0, 200), []).
Proof.
  split; [ reflexivity | ]. cbn [snd remove_all bind read write ret].
  repeat split. now destruct status_arg as [ [ | c st ] | ].
Qed.

(** X11.  The three status filters split the store.  In a store whose
    statuses are all in the enum, as every reachable store is, each task is
    listed under exactly the filter naming its status, and the three totals
    add up to the total of the unfiltered list. *)
Theorem list_tasks_partition (s : list task) :
  Forall status_ok s ->
  exists p i c,
    list_tasks (Some "pending") s = (Return (BTasks p (length p), 200), s) /\
    list_tasks (Some "in_progress") s = (Return (BTasks i (length i), 200), s) /\
    list_tasks (Some "completed") s = (Return (BTasks c (length c), 200), s) /\
    list_tasks None s = (Return (BTasks s (length p + length i + length c), 200), s) /\
    (forall t, In t s <-> In t p \/ In t i \/ In t c) /\
    (forall t, ~ (In t p /\ In t i) /\ ~ (In t p /\ In t c)
               /\ ~ (In t i /\ In t c)).
Proof.
  intros H.
  exists (filter (fun t => json_eqb (status t) (JStr "pending")) s),
         (filter (fun t => json_eqb (status t) (JStr "in_progress")) s),
         (filter (fun t => json_eqb (status t) (JStr "completed")) s).
  split; [ reflexivity | split; [ reflexivity | split; [ reflexivity | ] ] ].
  split; [ | split ].
  - assert (L : length (filter (fun t => json_eqb (status t) (JStr "pending")) s)
                + length (filter (fun t => json_eqb (status t) (JStr "in_progress")) s)
                + length (filter (fun t => json_eqb (status t) (JStr "completed")) s)
                = length s).
    { induction H as [ | a s Ha Hs IH ]; [ reflexivity | ].
      cbn [filter length]. rewrite <- IH.
      destruct Ha as [ -> | [ -> | -> ] ]; cbn; lia. }
    unfold list_tasks, bind, read, ret. now rewrite L.
  - intros t. rewrite !filter_In, !json_eqb_str. split.
    + intros Hi. rewrite Forall_forall in H.
      destruct (H t Hi) as [ E | [ E | E ] ]; auto.
    + tauto.
  - intros t. rewrite !filter_In, !json_eqb_str.
    repeat split; intros ((_ & E1) & (_ & E2)); congruence.
Qed.

(** ** The validator on objects *)

Lemma check_required_obj (items : list (string * json))
    (must_have : list string) :
  check_required (JObj items) must_have
  = Return (option_map required_message (find (lacks items) must_have)).
Proof.
  induction must_have as [ | key rest IH ]; [ reflexivity | ].
  cbn [check_required find]. unfold lacks at 1, Py.contains, Py.getitem.
  destruct (assoc key items) as [ v | ]; cbn [rbind]; [ | reflexivity ].
  destruct (Py.str_blank v); [ reflexivity | exact IH ].
Qed.

(** X12.  What [check_task_input] decides on an object, for any list of
    required keys.  If some required key is missing or blank, the verdict is
    the message naming the first such key in the order of the list, whatever
    the status field holds.  Otherwise it accepts when the status is absent
    or in the enum, rejects with the status message when the status is any
    other string, number, boolean or null, and raises [TypeError] when the
    status is a list or an object. *)
Theorem check_task_input_object (items : list (string * json))
    (must_have : list string) :
  let verdict := check_task_input allowed_status (JObj items) (Some must_have) in
  (forall key,
     find (lacks items) must_have = Some key ->
     verdict = Return (false, required_message key)) /\
  (find (lacks items) must_have = None ->
     (absent_or valid_status "status" items -> verdict = Return (true, "")) /\
     (forall v, assoc "status" items = Some v -> ~ valid_status v ->
        (hashable v ->
         verdict = Return (false, status_message allowed_status)) /\
        (~ hashable v -> verdict = Raise TypeError))).
Proof.
  cbv zeta. unfold check_task_input. rewrite check_required_obj. split.
  - intros key ->. reflexivity.
  - intros ->. cbn [option_map rbind]. unfold Py.contains, Py.getitem. split.
    + unfold absent_or. destruct (assoc "status" items) as [ v | ];
        [ | reflexivity ].
      intros Hv. cbn [rbind].
      now rewrite (in_set_valid _ allowed_status_members v Hv).
    + intros v -> Hv. cbn [rbind]. split.
      * intros Hh.
        now rewrite (in_set_invalid _ allowed_status_members v Hh Hv).
      * intros Hh. destruct v; try (exfalso; apply Hh; exact I); reflexivity.
Qed.

(** ** Updates with a payload that is not an object *)

(** X13.  A body that parses to something other than an object can still
    be an update.  For an existing id and such a payload, [modify_task]
    never changes title, description or status: it refuses a falsy payload
    as a Bad Request, and otherwise either raises [TypeError] with the store
    as it was, or, when the payload is a list or string in which none of the
    three keys occurs, answers 200 having reset [updated] only. *)
Theorem modify_task_non_object (tid : string) (r : ref) (t : task)
    (data : json) (now : string) (s : list task) :
  get_task tid s = Some (r, t) ->
  (forall items, data <> JObj items) ->
  let out := modify_task allowed_status tid data now s in
  (Py.truthy data = false -> out = (Return bad_request, s)) /\
  (Py.truthy data = true ->
     out = (Raise TypeError, s) \/
     (Py.contains "title" data = Return false /\
      Py.contains "description" data = Return false /\
      Py.contains "status" data = Return false /\
      out = (Return (BTaskMsg (set_updated now t) "Task updated", 200),
             alter (set_updated now) r s))).
Proof.
  intros G Hno out. subst out.
  destruct (get_task_found _ _ _ _ G) as (Hn & _).
  rewrite (modify_task_found _ _ _ _ _ _ _ G). split.
  - intros ->. reflexivity.
  - intros ->. cbn [negb].
    assert (Hget : forall key, Py.getitem data key = Raise TypeError).
    { intros key. destruct data as [ | | | | | | o ]; try reflexivity.
      now destruct (Hno o). }
    assert (Hraise : forall key e, Py.contains key data = Raise e ->
                                   e = TypeError).
    { intros key e. destruct data as [ | | | | | | o ]; cbn [Py.contains];
        intros E; try discriminate E; now injection E. }
    unfold check_task_input. cbn [check_required rbind].
    rewrite apply_update_run.
    unfold put_title, put_description, put_status, bind, lift, ret, assign.
    rewrite !Hget.
    destruct (Py.contains "status" data) as [ [ | ] | e ] eqn:Cs;
      cbn [rbind].
    + now left.
    + destruct (Py.contains "title" data) as [ [ | ] | e ] eqn:Ct.
      * now left.
      * destruct (Py.contains "description" data) as [ [ | ] | e ] eqn:Cd.
        -- now left.
        -- right. repeat split.
           now rewrite (nth_alter _ _ _ _ t Hn).
        -- left. now rewrite (Hraise _ _ Cd).
      * left. now rewrite (Hraise _ _ Ct).
    + left. now rewrite (Hraise _ _ Cs).
Qed.

(** ** Successful updates of an object, exactly *)

(** X14.  When an update with an object payload is answered 200, the
    object was not empty, its title and description were strings or absent
    and its status an enum value or absent, and the answer and the store
    are those of the specification's wording: the dict behind the id is
    replaced by [merge_fields] of the payload, and nothing else changes. *)
Theorem modify_task_object_success (tid : string) (r : ref) (t : task)
    (items : list (string * json)) (now : string) (s s' : list task)
    (b : body) :
  get_task tid s = Some (r, t) ->
  modify_task allowed_status tid (JObj items) now s = (Return (b, 200), s') ->
  items <> [] /\
  absent_or is_str "title" items /\
  absent_or is_str "description" items /\
  absent_or valid_status "status" items /\
  b = BTaskMsg (merge_fields items now t) "Task updated" /\
  s' = alter (fun _ => merge_fields items now t) r s.
Proof.
  intros G E.
  assert (Hne : items <> []).
  { intros ->. rewrite (modify_task_found _ _ _ _ _ _ _ G) in E.
    discriminate E. }
  assert (Hs : absent_or valid_status "status" items).
  { rewrite (modify_task_found _ _ _ _ _ _ _ G) in E.
    destruct items as [ | kv l ]; [ contradiction | ].
    cbn [Py.truthy negb] in E. rewrite check_update_obj in E.
    unfold absent_or. destruct (assoc "status" (kv :: l)) as [ v | ];
      [ | exact I ].
    apply (in_set_true _ allowed_status_members).
    destruct (Py.in_set v allowed_status) as [ [ | ] | e ];
      [ reflexivity | discriminate E | discriminate E ]. }
  assert (Hchk : check_task_input allowed_status (JObj items) (Some [])
                 = Return (true, "")).
  { rewrite check_update_obj. unfold absent_or in Hs.
    destruct (assoc "status" items) as [ v | ]; [ | reflexivity ].
    now rewrite (in_set_valid _ allowed_status_members v Hs). }
  assert (Hrun : apply_update r t (JObj items) now s = (Return (b, 200), s')).
  { rewrite (modify_task_found _ _ _ _ _ _ _ G) in E.
    destruct items as [ | kv l ]; [ contradiction | ].
    cbn [Py.truthy negb] in E. now rewrite Hchk in E. }
  assert (Ht : absent_or is_str "title" items).
  { unfold absent_or. destruct (assoc "title" items) as [ tv | ] eqn:Et;
      [ | exact I ].
    destruct tv as [ | tb | tn | tf | x | tl | to ]; try (now exists x);
      rewrite apply_update_run in Hrun; unfold bind in Hrun;
      rewrite put_title_obj, Et in Hrun; discriminate Hrun. }
  assert (Hd : absent_or is_str "description" items).
  { unfold absent_or. destruct (assoc "description" items) as [ dv | ] eqn:Ed;
      [ | exact I ].
    destruct dv as [ | db | dn | df | d | dl | do ]; try (now exists d);
      rewrite apply_update_run in Hrun; unfold bind in Hrun;
      rewrite put_title_obj in Hrun; unfold absent_or in Ht;
      (destruct (assoc "title" items) as [ tv | ];
         [ destruct Ht as (x & ->);
           destruct (Str.nonempty (Str.strip x)) | ]);
      rewrite put_description_obj, Ed in Hrun; discriminate Hrun. }
  rewrite (modify_task_typed _ allowed_status_members _ _ _ _ _ _
             G Hne Ht Hd Hs) in E.
  injection E as <- <-. now repeat split.
Qed.

(** ** The task count *)

(** A request leaves the size of the store as it was, or is a creation
    answered 201 that added one task, or a deletion answered 200 that took
    one out, or the clearing. *)
Lemma handle_length (q : request) (s s' : list task) (res : result response) :
  handle allowed_status q s = (res, s') ->
  (length s' = length s /\ (forall b, res <> Return (b, 201)) /\
   (forall tid b, q = DeleteTask tid -> res <> Return (b, 200)) /\
   q <> DeleteTasks) \/
  (length s' = S (length s) /\
   (exists b, res = Return (b, 201)) /\
   exists data rnd now, q = PostTask data rnd now) \/
  (S (length s') = length s /\
   exists tid b, q = DeleteTask tid /\ res = Return (b, 200)) \/
  (q = DeleteTasks /\ length s' = 0 /\ exists b, res = Return (b, 200)).
Proof.
  intros E. destruct q; cbn [handle] in E.
  - left. destruct status_arg as [ [ | c st ] | ]; injection E as <- <-;
      repeat split; discriminate.
  - left. unfold fetch_task, bind, read, ret in E.
    destruct (get_task tid s) as [ [r t] | ]; injection E as <- <-;
      repeat split; discriminate.
  - destruct (add_task_cases data rnd now s)
      as [ (items & x & Hc & H) | (Hs & Hcode) ]; rewrite E in *.
    + right. left. injection H as -> ->. rewrite length_app. cbn [length].
      split; [ lia | split; [ eauto | eauto ] ].
    + left. cbn [fst snd] in *. subst s'.
      repeat split; try discriminate.
      intros b ->. specialize (Hcode _ _ eq_refl). discriminate Hcode.
  - left.
    destruct (modify_task_touches (fun _ => True) tid data now s)
      as (r & h & Hh & _); try easy.
    rewrite E in Hh. cbn [snd] in Hh. subst s'. rewrite alter_length.
    repeat split; try discriminate.
    intros b ->. destruct (modify_task_codes _ _ _ _ _ _ _ E)
      as [ F | ([ F | F ] & _) ]; discriminate F.
  - unfold remove_task, bind, read, lift, write, ret in E.
    destruct (get_task tid s) as [ [r t] | ] eqn:G.
    + right. right. left.
      destruct (get_task_found _ _ _ _ G) as (Hn & _).
      assert (Hlen : S (length (firstn r s ++ skipn (S r) s)) = length s).
      { pose proof (firstn_skipn_middle _ _ _ Hn) as Hs.
        remember (firstn r s) as before eqn:Hb.
        remember (skipn (S r) s) as after eqn:Ha.
        rewrite Hs, !length_app. cbn [length]. lia. }
      rewrite (list_remove_found _ _ _ _ G) in E. injection E as <- <-.
      split; [ exact Hlen | eauto ].
    + left. injection E as <- <-. repeat split; discriminate.
  - right. right. right. injection E as <- <-.
    split; [ reflexivity | split; [ reflexivity | eauto ] ].
  - left. injection E as <- <-. repeat split; discriminate.
Qed.

(** X16.  How the count that the health check reports moves.  Across any
    request, the totals reported before and after differ by one more after
    a 201, by one less after a deletion answered 200, drop to zero after
    clearing, and are equal in every other case, an update that raised
    included. *)
Theorem ping_counts (q : request) (now : string) (s s' : list task)
    (res : result response) :
  handle allowed_status q s = (res, s') ->
  exists n n',
    ping now s = (Return (BHealth n now, 200), s) /\
    ping now s' = (Return (BHealth n' now, 200), s') /\
    (forall b, res = Return (b, 201) -> n' = S n) /\
    (forall tid b, q = DeleteTask tid -> res = Return (b, 200) -> S n' = n) /\
    (q = DeleteTasks -> n' = 0) /\
    ((forall b, res <> Return (b, 201)) ->
     (forall tid b, q = DeleteTask tid -> res <> Return (b, 200)) ->
     q <> DeleteTasks -> n' = n).
Proof.
  intros E. exists (length s), (length s').
  split; [ reflexivity | split; [ reflexivity | ] ].
  destruct (handle_length q s s' res E)
    as [ (Hl & H1 & H2 & H3)
       | [ (Hl & (b0 & Hb) & (data & rnd & now0 & Hq))
         | [ (Hl & tid0 & b0 & Hq & Hb) | (Hq & Hl & b0 & Hb) ] ] ].
  - split; [ intros b Hb; now destruct (H1 b) | ].
    split; [ intros tid b Hq Hb; now destruct (H2 tid b Hq) | ].
    split; [ intros Hq; now destruct H3 | auto ].
  - split; [ auto | ].
    split; [ intros tid b F; rewrite Hq in F; discriminate F | ].
    split; [ intros F; rewrite Hq in F; discriminate F | ].
    intros H. now destruct (H b0).
  - split; [ intros b F; rewrite Hb in F; discriminate F | ].
    split; [ auto | ].
    split; [ intros F; rewrite Hq in F; discriminate F | ].
    intros _ H. now destruct (H tid0 b0 Hq).
  - split; [ intros b F; rewrite Hb in F; discriminate F | ].
    split; [ intros tid b F; rewrite Hq in F; discriminate F | ].
    split; [ auto | ].
    intros _ _ H. now destruct H.
Qed.

(** ** Timestamps on a clock that does not go back *)

Lemma ascii_compare_refl (c : ascii) : Ascii.compare c c = Eq.
Proof. apply N.compare_refl. Qed.

Lemma string_compare_refl (x : string) : String.compare x x = Eq.
Proof.
  induction x as [ | c x IH ]; [ reflexivity | ].
  cbn [String.compare]. now rewrite ascii_compare_refl.
Qed.

Lemma leb_refl (x : string) : String.leb x x = true.
Proof. unfold String.leb. now rewrite string_compare_refl. Qed.

Lemma string_compare_trans (x y z : string) :
  String.compare x y <> Gt -> String.compare y z <> Gt ->
  String.compare x z <> Gt.
Proof.
  revert y z. induction x as [ | a x IH ]; intros [ | b y ] [ | c z ];
    cbn [String.compare]; try easy.
  destruct (Ascii.compare a b) eqn:Eab; try easy;
    destruct (Ascii.compare b c) eqn:Ebc; try easy.
  - apply Ascii.compare_eq_iff in Eab, Ebc. subst.
    rewrite ascii_compare_refl. apply IH.
  - apply Ascii.compare_eq_iff in Eab. subst. now rewrite Ebc.
  - apply Ascii.compare_eq_iff in Ebc. subst. now rewrite Eab.
  - intros _ _. unfold Ascii.compare in *.
    rewrite N.compare_lt_iff in Eab, Ebc.
    assert (L : (N_of_ascii a < N_of_ascii c)%N) by lia.
    apply N.compare_lt_iff in L. now rewrite L.
Qed.

Lemma leb_trans (x y z : string) :
  String.leb x y = true -> String.leb y z = true -> String.leb x z = true.
Proof.
  unfold String.leb. intros Hxy Hyz.
  pose proof (string_compare_trans x y z) as H.
  destruct (String.compare x y); try discriminate Hxy;
    destruct (String.compare y z); try discriminate Hyz;
    destruct (String.compare x z); try reflexivity;
    now destruct H.
Qed.

Lemma stamps_ok_later (clock now : string) (s : list task) :
  String.leb clock now = true ->
  Forall (stamps_ok clock) s -> Forall (stamps_ok now) s.
Proof.
  intros Hc. apply Forall_impl. intros t (H1 & H2).
  split; [ exact H1 | now apply leb_trans with clock ].
Qed.

Lemma handle_keeps_stamps (q : request) (now : string) (s : list task) :
  (forall x, request_time q = Some x -> x = now) ->
  Forall (stamps_ok now) s ->
  Forall (stamps_ok now) (snd (handle allowed_status q s)).
Proof.
  intros Hq H. destruct q; cbn [handle].
  - destruct status_arg as [ [ | c st ] | ]; exact H.
  - unfold fetch_task, bind, read, ret.
    destruct (get_task tid s) as [ [r t] | ]; exact H.
  - rewrite (Hq now0 eq_refl) in *.
    destruct (add_task_cases data rnd now s)
      as [ (items & x & Hc & E) | (E & _) ]; rewrite E; [ | exact H ].
    cbn [snd]. apply Forall_app. split; [ exact H | ].
    apply Forall_cons; [ | apply Forall_nil ].
    split; cbn [created_task created updated]; apply leb_refl.
  - rewrite (Hq now0 eq_refl) in *.
    destruct (modify_task_touches
                (fun f => forall y, stamps_ok now y -> stamps_ok now (f y))
                tid data now s) as (r & h & -> & Hh); try (now intros).
    + split; [ auto | intros f g Hf Hg y Hy; apply Hg, Hf, Hy ].
    + intros y (H1 & H2). split; cbn [set_updated created updated].
      * now apply leb_trans with (updated y).
      * apply leb_refl.
    + now apply alter_Forall.
  - destruct (remove_task_store tid s)
      as [ -> | (before & t & after & Hs' & ->) ]; [ exact H | ].
    rewrite Hs' in H. apply Forall_app in H. destruct H as (H1 & H2).
    apply Forall_app. split; [ exact H1 | now inversion H2 ].
  - constructor.
  - exact H.
Qed.

(** X17.  On a clock that never goes back, timestamps are in order.  In
    every store reached by serving requests at clock readings none of which
    is before the one before it, starting no earlier than the preloaded
    timestamps, every task has [created] not after [updated] and [updated]
    not after the last reading; and an update of such a store that is
    answered 200, at a reading not before the last one, leaves the task with
    an [updated] that is that reading and is not before its previous
    [updated]. *)
Theorem timed_run_stamps_in_order (clock : string) (s : list task) :
  timed_run allowed_status clock s ->
  Forall (stamps_ok clock) s /\
  forall tid r t data now b s',
    String.leb clock now = true ->
    get_task tid s = Some (r, t) ->
    modify_task allowed_status tid data now s = (Return (b, 200), s') ->
    exists t',
      nth_error s' r = Some t' /\ updated t' = now /\
      String.leb (updated t) (updated t') = true.
Proof.
  intros Hrun.
  assert (Hinv : Forall (stamps_ok clock) s).
  { induction Hrun as [ rnd1 rnd2 clock Hc | q clock now s Hs IH Hc Hq ].
    - unfold initial_store.
      apply Forall_cons; [ | apply Forall_cons; [ | apply Forall_nil ] ];
        (split; cbn [created updated]; [ reflexivity | ]);
        [ exact Hc | now apply leb_trans with "2025-09-30T10:00:00" ].
    - apply handle_keeps_stamps; [ exact Hq | ].
      now apply stamps_ok_later with clock. }
  split; [ exact Hinv | ].
  intros tid r t data now b s' Hc G E.
  destruct (get_task_found _ _ _ _ G) as (Hn & _).
  assert (Ht : stamps_ok clock t).
  { rewrite Forall_forall in Hinv. apply Hinv.
    now apply nth_error_In with r. }
  rewrite (modify_task_found _ _ _ _ _ _ _ G) in E.
  destruct (negb (Py.truthy data)); [ discriminate E | ].
  destruct (check_task_input allowed_status data (Some []))
    as [ [ [ | ] msg ] | e ]; try discriminate E.
  destruct (apply_update_effect
              (fun f => forall y, updated (f y) = updated y)
              r t data now s) as (g & Qg & [ F | (e & F) ]);
    try (now intros); try exact Hn.
  - split; [ now intros y | intros f h Hf Hh y; now rewrite Hh, Hf ].
  - rewrite F in E. injection E as _ <-.
    exists (set_updated now (g t)).
    split; [ now apply (alter_same (fun x => set_updated now (g x))) | ].
    split; [ reflexivity | ].
    cbn [set_updated updated]. destruct Ht as (_ & Ht).
    now apply leb_trans with clock.
  - rewrite F in E. discriminate E.
Qed.

End More.

(** ** Getting a task *)

(** X15.  [fetch_task] answers with the first task, in store order, that
    has the id, and with Not Found when no task has it; so in a store whose
    ids are pairwise distinct every stored task is the answer for its own
    id.  The store is never changed. *)
Theorem fetch_task_spec (tid : string) (s : list task) :
  (In tid (map id s) ->
   exists before t after,
     s = (before ++ t :: after)%list /\ id t = tid /\
     ~ In tid (map id before) /\
     fetch_task tid s = (Return (BTask t, 200), s)) /\
  (~ In tid (map id s) ->
   fetch_task tid s = (Return (not_found ("No task with id " ++ tid)), s)) /\
  (NoDup (map id s) ->
   forall t, In t s -> id t = tid ->
   fetch_task tid s = (Return (BTask t, 200), s)).
Proof.
  assert (Hfirst : In tid (map id s) ->
            exists before t after,
              s = (before ++ t :: after)%list /\ id t = tid /\
              ~ In tid (map id before) /\
              fetch_task tid s = (Return (BTask t, 200), s)).
  { intros Hin. destruct (get_task_in _ _ Hin) as (r & t & G).
    destruct (get_task_found _ _ _ _ G) as (Hn & Hi & Hb).
    exists (firstn r s), t, (skipn (S r) s).
    split; [ now apply firstn_skipn_middle | split; [ exact Hi | split ] ].
    - intros Hf. apply in_map_iff in Hf. destruct Hf as (x & Hx & Hxin).
      apply In_nth_error in Hxin. destruct Hxin as (j & Hj).
      assert (Hlt : j < r).
      { assert (Hl : j < length (firstn r s))
          by (apply nth_error_Some; congruence).
        rewrite length_firstn in Hl. lia. }
      rewrite nth_error_firstn in Hj.
      destruct (Nat.ltb j r) eqn:L; [ | discriminate Hj ].
      now apply (Hb j x Hlt Hj).
    - unfold fetch_task, bind, read, ret. now rewrite G. }
  split; [ exact Hfirst | split ].
  - intros Hout. apply get_task_none in Hout.
    unfold fetch_task, bind, read, ret. now rewrite Hout.
  - intros Hnd t Hin Hid.
    assert (Hm : In tid (map id s)) by (rewrite <- Hid; now apply in_map).
    destruct (Hfirst Hm) as (before & u & after & Hs & Hu & Hb & Hf).
    rewrite Hf. replace u with t; [ reflexivity | ].
    rewrite Hs in Hin, Hnd. rewrite map_app in Hnd. cbn [map] in Hnd.
    apply NoDup_remove_2 in Hnd.
    apply in_app_iff in Hin. destruct Hin as [ Hin | [ Hin | Hin ] ].
    + exfalso. apply Hb. rewrite <- Hid. now apply in_map.
    + now symmetry.
    + exfalso. apply Hnd. apply in_app_iff. right.
      rewrite Hu, <- Hid. now apply in_map.
Qed.

(** ** The further properties on sample requests *)

Lemma fresh_7 : ~ In (Uuid.fresh 7) (map id demo_store).
Proof. vm_compute. intros [ E | [ E | [] ] ]; discriminate E. Defined.

Lemma add_task_all_or_nothing_witness :
  (exists items x,
     creatable (JObj [("title", JStr " Buy milk ")]) items x /\
     snd (add_task enum (JObj [("title", JStr " Buy milk ")]) 7 demo_now
            demo_store)
       = (demo_store ++ [created_task items x 7 demo_now])%list) /\
  snd (add_task enum (JObj [("title", JStr "x"); ("description", JNull)]) 7
         demo_now demo_store) = demo_store.
Proof.
  split.
  - destruct (add_task_all_or_nothing enum enum_members
                (JObj [("title", JStr " Buy milk ")]) 7 demo_now demo_store
                _ _ (surjective_pairing _)) as (H & _).
    destruct (H (BTaskMsg (created_task [("title", JStr " Buy milk ")]
                             " Buy milk " 7 demo_now)
                   "Task successfully created") eq_refl)
      as (items & x & Hc & _ & Hs).
    now exists items, x.
  - destruct (add_task_all_or_nothing enum enum_members
                (JObj [("title", JStr "x"); ("description", JNull)]) 7
                demo_now demo_store _ _ (surjective_pairing _)) as (_ & H).
    apply H. intros b. vm_compute. discriminate.
Defined.

Lemma add_then_fetch_witness :
  exists t,
    id t = Uuid.fresh 7 /\
    fetch_task (id t)
      (snd (add_task enum (JObj [("title", JStr " Buy milk ")]) 7 demo_now
              demo_store))
    = (Return (BTask t, 200),
       snd (add_task enum (JObj [("title", JStr " Buy milk ")]) 7 demo_now
              demo_store)).
Proof.
  destruct (add_then_fetch enum enum_members
              (JObj [("title", JStr " Buy milk ")]) 7 demo_now demo_store
              _ _ fresh_7 eq_refl) as (t & _ & Hi & Hf).
  now exists t.
Defined.

Lemma add_then_remove_witness :
  remove_task (Uuid.fresh 7)
    (snd (add_task enum (JObj [("title", JStr " Buy milk ")]) 7 demo_now
            demo_store))
  = (Return (BDeleted "Task removed" (Uuid.fresh 7), 200), demo_store).
Proof.
  exact (add_then_remove enum enum_members
           (JObj [("title", JStr " Buy milk ")]) 7 demo_now demo_store
           _ _ fresh_7 eq_refl).
Defined.

Lemma reachable_text_trimmed_witness :
  Forall text_ok
    (snd (handle enum
            (PutTask demo_id (JObj [("title", JStr "  Ship it  ");
                                    ("description", JStr "   ")]) demo_now)
            (snd (handle enum
                    (PostTask (JObj [("title", JStr " Buy milk ")]) 7 demo_now)
                    demo_store)))).
Proof.
  apply (reachable_text_trimmed enum enum_members).
  apply reach_step. apply reach_step. exact (reach_init enum 1 2).
Defined.

Lemma reachable_fresh_ids_distinct_witness :
  NoDup (map id
           (snd (handle enum
                   (PostTask (JObj [("title", JStr " Buy milk ")]) 7 demo_now)
                   demo_store))).
Proof.
  apply (reachable_fresh_ids_distinct enum enum_members).
  apply fresh_step.
  - apply (fresh_init enum 1 2). vm_compute. discriminate.
  - intros data rnd now E. injection E as _ <- _. exact fresh_7.
Defined.

Lemma handle_keeps_identity_witness :
  let t' := created_task [("title", JStr " Buy milk ")] " Buy milk " 7 demo_now in
  (exists t, In t demo_store /\ id t = id t' /\ created t = created t') \/
  (exists data rnd now,
     PostTask (JObj [("title", JStr " Buy milk ")]) 7 demo_now
       = PostTask data rnd now /\
     id t' = Uuid.fresh rnd /\ created t' = now /\ updated t' = now).
Proof.
  apply (handle_keeps_identity enum enum_members
           (PostTask (JObj [("title", JStr " Buy milk ")]) 7 demo_now)
           demo_store).
  vm_compute. right. right. left. reflexivity.
Defined.

Lemma handle_codes_witness :
  snd (handle enum (DeleteTask "no-such-id") demo_store) = demo_store.
Proof.
  destruct (handle_codes enum enum_members (DeleteTask "no-such-id")
              demo_store _ (BError "Not Found" "No task with id no-such-id")
              404 (surjective_pairing _)) as (_ & H & _).
  apply H. now right.
Defined.

Lemma modify_task_partial_write_witness :
  modify_task enum demo_id
    (JObj [("title", JStr " Ship it "); ("description", JInt 5)]) demo_now
    demo_store
  = (Raise AttributeError, alter (set_title "Ship it") 0 demo_store).
Proof.
  assert (Hx : Str.strip " Ship it " <> "") by (vm_compute; discriminate).
  assert (Hn : ~ is_str (JInt 5)) by (intros (d & E); discriminate E).
  exact (proj1 (modify_task_partial_write enum enum_members demo_id 0 demo_task
                  [("title", JStr " Ship it "); ("description", JInt 5)]
                  " Ship it " (JInt 5) demo_now demo_store demo_lookup
                  eq_refl Hx eq_refl Hn I)).
Defined.

Lemma modify_task_idempotent_witness :
  modify_task enum demo_id (JObj [("status", JStr "completed")])
    "2026-02-01T09:00:00"
    (snd (modify_task enum demo_id (JObj [("status", JStr "completed")])
            demo_now demo_store))
  = modify_task enum demo_id (JObj [("status", JStr "completed")])
      "2026-02-01T09:00:00" demo_store.
Proof.
  apply (modify_task_idempotent enum enum_members demo_id 0 demo_task).
  - exact demo_lookup.
  - discriminate.
  - exact I.
  - exact I.
  - right. right. reflexivity.
Defined.

Lemma list_tasks_partition_witness :
  exists p i c,
    list_tasks (Some "pending") demo_store
      = (Return (BTasks p (length p), 200), demo_store) /\
    list_tasks (Some "in_progress") demo_store
      = (Return (BTasks i (length i), 200), demo_store) /\
    list_tasks (Some "completed") demo_store
      = (Return (BTasks c (length c), 200), demo_store) /\
    length p + length i + length c = 2.
Proof.
  destruct (list_tasks_partition demo_store)
    as (p & i & c & Hp & Hi & Hc & Hall & _).
  - unfold demo_store, initial_store.
    apply Forall_cons; [ | apply Forall_cons; [ | apply Forall_nil ] ];
      unfold status_ok, valid_status; cbn [status]; auto.
  - exists p, i, c. repeat split; try assumption.
    injection Hall as <-. reflexivity.
Defined.

Lemma check_task_input_object_witness :
  check_task_input enum
    (JObj [("description", JStr "x"); ("title", JStr "  "); ("status", JArr [])])
    (Some ["description"; "title"; "owner"])
  = Return (false, "'title' is required and cannot be blank").
Proof.
  destruct (check_task_input_object enum enum_members
              [("description", JStr "x"); ("title", JStr "  ");
               ("status", JArr [])]
              ["description"; "title"; "owner"]) as (H & _).
  exact (H "title" eq_refl).
Defined.

Lemma modify_task_non_object_witness :
  modify_task enum demo_id (JArr [JStr "x"]) demo_now demo_store
    = (Raise TypeError, demo_store) \/
  (Py.contains "title" (JArr [JStr "x"]) = Return false /\
   Py.contains "description" (JArr [JStr "x"]) = Return false /\
   Py.contains "status" (JArr [JStr "x"]) = Return false /\
   modify_task enum demo_id (JArr [JStr "x"]) demo_now demo_store
     = (Return (BTaskMsg (set_updated demo_now demo_task) "Task updated", 200),
        alter (set_updated demo_now) 0 demo_store)).
Proof.
  destruct (modify_task_non_object enum demo_id 0 demo_task (JArr [JStr "x"])
              demo_now demo_store demo_lookup) as (_ & H).
  - intros items E. discriminate E.
  - exact (H eq_refl).
Defined.

Lemma modify_task_object_success_witness :
  absent_or is_str "title" [("description", JStr " later ")] /\
  snd (modify_task enum demo_id (JObj [("description", JStr " later ")])
         demo_now demo_store)
  = alter (fun _ => merge_fields [("description", JStr " later ")] demo_now
                      demo_task) 0 demo_store.
Proof.
  destruct (modify_task_object_success enum enum_members demo_id 0 demo_task
              [("description", JStr " later ")] demo_now demo_store
              _ (BTaskMsg (merge_fields [("description", JStr " later ")]
                             demo_now demo_task) "Task updated")
              demo_lookup (surjective_pairing _))
    as (_ & Ht & _ & _ & _ & Hs).
  now split.
Defined.

Lemma fetch_task_spec_witness :
  fetch_task demo_id demo_store = (Return (BTask demo_task, 200), demo_store) /\
  fetch_task "no-such-id" demo_store
    = (Return (not_found "No task with id no-such-id"), demo_store).
Proof.
  destruct (fetch_task_spec demo_id demo_store) as (_ & _ & H1).
  destruct (fetch_task_spec "no-such-id" demo_store) as (_ & H2 & _).
  split.
  - apply H1; [ | left; reflexivity | reflexivity ].
    repeat constructor; simpl; intuition discriminate.
  - apply H2. vm_compute. intros [ E | [ E | [] ] ]; discriminate E.
Defined.

Lemma ping_counts_witness :
  exists n n',
    ping demo_now demo_store = (Return (BHealth n demo_now, 200), demo_store) /\
    ping demo_now
      (snd (handle enum (PostTask (JObj [("title", JStr " Buy milk ")]) 7
                           demo_now) demo_store))
    = (Return (BHealth n' demo_now, 200),
       snd (handle enum (PostTask (JObj [("title", JStr " Buy milk ")]) 7
                           demo_now) demo_store)) /\
    n' = S n.
Proof.
  destruct (ping_counts enum enum_members
              (PostTask (JObj [("title", JStr " Buy milk ")]) 7 demo_now)
              demo_now demo_store _ _ (surjective_pairing _))
    as (n & n' & H1 & H2 & H3 & _).
  exists n, n'. split; [ exact H1 | split; [ exact H2 | ] ].
  apply (H3 (BTaskMsg (created_task [("title", JStr " Buy milk ")]
                         " Buy milk " 7 demo_now)
               "Task successfully created")).
  reflexivity.
Defined.

Lemma timed_run_stamps_in_order_witness :
  let s := snd (handle enum
                  (PostTask (JObj [("title", JStr " Buy milk ")]) 7 demo_now)
                  demo_store) in
  Forall (stamps_ok demo_now) s /\
  exists t',
    nth_error
      (snd (modify_task enum demo_id (JObj [("status", JStr "completed")])
              "2026-02-01T09:00:00" s)) 0 = Some t' /\
    updated t' = "2026-02-01T09:00:00" /\
    String.leb (updated demo_task) (updated t') = true.
Proof.
  intros s.
  assert (Hrun : timed_run enum demo_now s).
  { apply (timed_step enum
             (PostTask (JObj [("title", JStr " Buy milk ")]) 7 demo_now)
             "2025-10-01T00:00:00" demo_now demo_store).
    - apply (timed_init enum 1 2). reflexivity.
    - reflexivity.
    - intros x E. now injection E as <-. }
  destruct (timed_run_stamps_in_order enum enum_members demo_now s Hrun)
    as (Hinv & Hup).
  split; [ exact Hinv | ].
  exact (Hup demo_id 0 demo_task (JObj [("status", JStr "completed")])
           "2026-02-01T09:00:00"
           (BTaskMsg (merge_fields [("status", JStr "completed")]
                        "2026-02-01T09:00:00" demo_task) "Task updated")
           _ eq_refl eq_refl (surjective_pairing _)).
Defined.
